(** * Hugging Face / SageMaker workshop notebooks

    A model of the three notebooks of the repository:

    - [part_000]: auto-scaling a real-time endpoint,
    - [part_001]: the four inference options (real-time, batch transform,
      asynchronous, serverless),
    - [lab2_knowledge_distillation]: the knowledge-distillation lab and its
      [DistillationTrainer.compute_loss].

    A notebook is a straight-line script of calls into the SageMaker SDK,
    boto3 and huggingface_hub.  Python values are a small universe
    ([pyval]); a script is a tree of SDK calls ([prog]) whose answers come
    from an environment ([sdk_env]) that may also raise; running a script
    gives its result and the trace of everything it did.

    A notebook is run from its first cell to its last and stops at the
    first exception that is not handled.  Import statements and the value
    a cell shows for its last expression leave no trace. *)

From Stdlib Require Import List String Ascii ZArith QArith Bool Lia.
From Stdlib Require DecimalString.
Import ListNotations.

Local Open Scope list_scope.
Local Open Scope string_scope.
Set Warnings "-register-all".

(** ** Python values *)

Inductive pyval : Type :=
| VNone
| VBool (b : bool)
| VInt (n : Z)
| VFloat (q : Q)
| VStr (s : string)
| VList (l : list pyval)
| VDict (kv : list (string * pyval))
| VObj (cls : string) (attrs : list (string * pyval))
| VMethod (self : pyval) (name : string).

(** Exceptions, by class.  [ValueError] stands for any instance of
    [ValueError], which is what [except ValueError] catches; [SdkError]
    is an exception of another class raised by an external library. *)
Inductive exn : Type :=
| ValueError
| IndexError
| KeyError
| TypeError
| AttributeError
| AssertionError
| SdkError (cls : string).

Inductive result (A : Type) : Type :=
| Ok (a : A)
| Raise (e : exn).
Arguments Ok {A} a.
Arguments Raise {A} e.

Definition exn_eqb (a b : exn) : bool :=
  match a, b with
  | ValueError, ValueError | IndexError, IndexError | KeyError, KeyError
  | TypeError, TypeError | AttributeError, AttributeError
  | AssertionError, AssertionError => true
  | SdkError x, SdkError y => String.eqb x y
  | _, _ => false
  end.

Definition rbind {A B : Type} (r : result A) (f : A -> result B) : result B :=
  match r with
  | Ok a => f a
  | Raise e => Raise e
  end.

Notation "'let?' x := r 'in' k" := (rbind r (fun x => k))
  (at level 10, x name, r at level 100, k at level 200).

(** ** Pure Python operations used by the notebooks *)

Fixpoint lookup (k : string) (kv : list (string * pyval)) : option pyval :=
  match kv with
  | [] => None
  | (k', v) :: rest => if String.eqb k k' then Some v else lookup k rest
  end.

(** A Python index into a sequence of length [len]: negative indices
    count from the end. *)
Definition py_index (len : nat) (i : Z) : option nat :=
  let j := if (i <? 0)%Z then (Z.of_nat len + i)%Z else i in
  if (j <? 0)%Z then None
  else if (j <? Z.of_nat len)%Z then Some (Z.to_nat j) else None.

(** [v[k]]: a dict by key, a list or a string by position. *)
Definition py_getitem (v : pyval) (k : pyval) : result pyval :=
  match v, k with
  | VDict kv, VStr s =>
      match lookup s kv with Some x => Ok x | None => Raise KeyError end
  | VDict _, _ => Raise KeyError
  | VList l, VInt i =>
      match py_index (List.length l) i with
      | Some n => match nth_error l n with Some x => Ok x | None => Raise IndexError end
      | None => Raise IndexError
      end
  | VStr s, VInt i =>
      match py_index (String.length s) i with
      | Some n =>
          match String.get n s with
          | Some c => Ok (VStr (String c EmptyString))
          | None => Raise IndexError
          end
      | None => Raise IndexError
      end
  | _, _ => Raise TypeError
  end.

(** [o.name] for a data attribute of an SDK object. *)
Definition py_getattr (v : pyval) (name : string) : result pyval :=
  match v with
  | VObj _ attrs =>
      match lookup name attrs with Some x => Ok x | None => Raise AttributeError end
  | _ => Raise AttributeError
  end.

(** [s.split(sep)] for a one-character separator: one piece more than
    there are separators, never the empty list. *)
Fixpoint split (sep : ascii) (s : string) : list string :=
  match s with
  | EmptyString => [EmptyString]
  | String c s' =>
      if Ascii.eqb c sep then EmptyString :: split sep s'
      else match split sep s' with
           | [] => [String c EmptyString]
           | p :: ps => String c p :: ps
           end
  end.

Definition py_split (v : pyval) (sep : ascii) : result pyval :=
  match v with
  | VStr s => Ok (VList (map VStr (split sep s)))
  | _ => Raise AttributeError
  end.

Fixpoint str_repeat (s : string) (n : nat) : string :=
  match n with
  | O => EmptyString
  | S n' => s ++ str_repeat s n'
  end.

(** [a * b]: integer product, or repetition of a string. *)
Definition py_mul (a b : pyval) : result pyval :=
  match a, b with
  | VInt x, VInt y => Ok (VInt (x * y))
  | VStr s, VInt n => Ok (VStr (str_repeat s (Z.to_nat n)))
  | _, _ => Raise TypeError
  end.

Definition string_of_Z (z : Z) : string :=
  DecimalString.NilZero.string_of_int (Z.to_int z).

Definition is_none (v : pyval) : bool :=
  match v with VNone => true | _ => false end.

(** [str(v)], as the f-strings of the notebooks apply it.  The notebooks
    format strings and integers, for which this is the text Python gives;
    the text of other values (which for objects depends on their address)
    is not modelled, a placeholder naming the class stands for it. *)
Definition py_str (v : pyval) : string :=
  match v with
  | VNone => "None"
  | VBool true => "True"
  | VBool false => "False"
  | VInt n => string_of_Z n
  | VStr s => s
  | VFloat _ => "<float>"
  | VList _ => "<list>"
  | VDict _ => "<dict>"
  | VObj cls _ => "<" ++ cls ++ " object>"
  | VMethod _ name => "<bound method " ++ name ++ ">"
  end.

(** ** Calls, events and scripts *)

Record call : Type := mkCall {
  recv : pyval;                     (* receiver, [VNone] for a module function *)
  fname : string;
  args : list pyval;
  kwargs : list (string * pyval)
}.

Inductive output : Type :=
| Display (value : pyval)                       (* print(value) *)
| Shell (cmd : string)                          (* a ! line *)
| PoolCreate (max_workers : Z)                  (* ThreadPoolExecutor(max_workers=...) *)
| PoolSubmit (fn : pyval) (fargs : list pyval)  (* executor.submit(fn, *args) *)
| PoolShutdown.                                 (* leaving the with block *)

Inductive event : Type :=
| SdkCall (c : call) (r : result pyval)
| Out (o : output).

(** What the external services answer to a call, given what happened so
    far. *)
Definition sdk_env : Type := list event -> call -> result pyval.

Inductive prog : Type :=
| Ret (v : pyval)
| Throw (e : exn)
| Call (c : call) (k : pyval -> prog)
| Emit (o : output) (k : prog)
| Try (body : prog) (catches : exn -> bool) (handler : prog) (k : pyval -> prog).

Fixpoint bind (p : prog) (f : pyval -> prog) : prog :=
  match p with
  | Ret v => f v
  | Throw e => Throw e
  | Call c k => Call c (fun v => bind (k v) f)
  | Emit o k => Emit o (bind k f)
  | Try body catches handler k => Try body catches handler (fun v => bind (k v) f)
  end.

Definition lift (r : result pyval) : prog :=
  match r with
  | Ok v => Ret v
  | Raise e => Throw e
  end.

Declare Scope py_scope.
Delimit Scope py_scope with py.
Notation "x <- p ;; q" := (bind p (fun x => q))
  (at level 61, p at next level, right associativity) : py_scope.
Notation "p ;; q" := (bind p (fun _ => q))
  (at level 61, right associativity) : py_scope.
Local Open Scope py_scope.

Definition invoke (c : call) : prog := Call c Ret.

Definition sdk (r : pyval) (f : string) (a : list pyval) (kw : list (string * pyval)) : prog :=
  invoke (mkCall r f a kw).

(** [print(v)]; an f-string is printed as the [VStr] of its text. *)
Definition print (v : pyval) : prog := Emit (Display v) (Ret VNone).
Definition shell (cmd : string) : prog := Emit (Shell cmd) (Ret VNone).

(** [for i in range(n): body] *)
Fixpoint for_range (n : nat) (body : prog) : prog :=
  match n with
  | O => Ret VNone
  | S n' => body ;; for_range n' body
  end.

(** Running a script: the result, and the events it produced in order.
    [hist] is what happened before, which the environment may look at. *)
Fixpoint run (env : sdk_env) (p : prog) (hist : list event) : result pyval * list event :=
  match p with
  | Ret v => (Ok v, [])
  | Throw e => (Raise e, [])
  | Call c k =>
      let r := env hist c in
      let ev := SdkCall c r in
      match r with
      | Ok v => let (r', evs) := run env (k v) (hist ++ [ev])%list in (r', ev :: evs)
      | Raise e => (Raise e, [ev])
      end
  | Emit o k =>
      let (r', evs) := run env k (hist ++ [Out o])%list in (r', Out o :: evs)
  | Try body catches handler k =>
      let (rb, evb) := run env body hist in
      match rb with
      | Ok v =>
          let (r', evs) := run env (k v) (hist ++ evb)%list in (r', (evb ++ evs)%list)
      | Raise e =>
          if catches e then
            let (rh, evh) := run env handler (hist ++ evb)%list in
            match rh with
            | Ok v =>
                let (r', evs) := run env (k v) (hist ++ evb ++ evh)%list in
                (r', (evb ++ evh ++ evs)%list)
            | Raise e' => (Raise e', (evb ++ evh)%list)
            end
          else (Raise e, evb)
      end
  end.

(** ** Notebook [part_000]: auto-scaling a real-time endpoint *)

Module Part000.

Definition dq : string := String (Ascii.ascii_of_nat 34) EmptyString.
Definition nl : string := String (Ascii.ascii_of_nat 10) EmptyString.

(** The hub configuration; the notebook uses
    ['yiyanghkust/finbert-tone']. *)
Definition hub (model_id : string) : pyval :=
  VDict [("HF_MODEL_ID", VStr model_id); ("HF_TASK", VStr "text-classification")].

Definition HF_MODEL_ID : string := "yiyanghkust/finbert-tone".

(** [f'{hub["HF_MODEL_ID"].split("/")[1]}-{str(uuid4())}'], with [uuid]
    the text of the fresh UUID4. *)
Definition endpoint_name (hub : pyval) (uuid : string) : result pyval :=
  let? model_id := py_getitem hub (VStr "HF_MODEL_ID") in
  let? parts := py_split model_id "/" in
  let? name := py_getitem parts (VInt 1) in
  Ok (VStr (py_str name ++ "-" ++ uuid)).

Definition cell_model (model_id uuid : string) : prog :=
  role <- sdk VNone "sagemaker.get_execution_role" [] [] ;;
  let hub := hub model_id in
  endpoint_name <- lift (endpoint_name hub uuid) ;;
  sdk VNone "HuggingFaceModel" []
    [("env", hub); ("role", role); ("name", endpoint_name);
     ("transformers_version", VStr "4.11");
     ("pytorch_version", VStr "1.9");
     ("py_version", VStr "py38")].

Definition deploy (huggingface_model : pyval) : call :=
  mkCall huggingface_model "deploy" []
    [("initial_instance_count", VInt 1); ("instance_type", VStr "ml.c5.large")].

Definition cell_deploy (huggingface_model : pyval) : prog :=
  invoke (deploy huggingface_model).

Definition boto_region_name (predictor : pyval) : result pyval :=
  let? session := py_getattr predictor "sagemaker_session" in
  py_getattr session "boto_region_name".

Definition data : pyval :=
  VDict [("inputs",
          VStr "There is a shortage of capital for project SageMaker. We need extra financing")].

Definition predict (predictor data : pyval) : call :=
  mkCall predictor "predict" [data] [].

(** The endpoint name written out in both dashboard URLs of the notebook. *)
Definition stale_endpoint : string :=
  "finbert-tone-73d26f97-9376-4b3f-9334-a2-2021-10-29-12-18-52-365".

Definition latency_url (aws_region endpoint : string) : string :=
  "https://console.aws.amazon.com/cloudwatch/home?region=" ++ aws_region
  ++ "#metricsV2:graph=~(metrics~(~(~'AWS*2fSageMaker~'ModelLatency~'EndpointName~'"
  ++ stale_endpoint
  ++ "~'VariantName~'AllTraffic))~view~'timeSeries~stacked~false~start~'-PT15M~end~'P0D~region~'"
  ++ aws_region
  ++ "~stat~'SampleCount~period~30);query=~'*7bAWS*2fSageMaker*2cEndpointName*2cVariantName*7d*20"
  ++ endpoint.

Definition cell_latency_dashboard (aws_region predictor : pyval) : prog :=
  endpoint <- lift (py_getattr predictor "endpoint_name") ;;
  print (VStr (latency_url (py_str aws_region) (py_str endpoint))).

Definition register_scalable_target (asg_client : pyval) (resource_id : string) : call :=
  mkCall asg_client "register_scalable_target" []
    [("ServiceNamespace", VStr "sagemaker");
     ("ResourceId", VStr resource_id);
     ("ScalableDimension", VStr "sagemaker:variant:DesiredInstanceCount");
     ("MinCapacity", VInt 1);
     ("MaxCapacity", VInt 4)].

Definition put_scaling_policy (asg_client : pyval) (resource_id : string)
    (endpoint1 endpoint2 : pyval) : call :=
  mkCall asg_client "put_scaling_policy" []
    [("PolicyName", VStr ("CPUUtil-ScalingPolicy-" ++ py_str endpoint1));
     ("ServiceNamespace", VStr "sagemaker");
     ("ResourceId", VStr resource_id);
     ("ScalableDimension", VStr "sagemaker:variant:DesiredInstanceCount");
     ("PolicyType", VStr "TargetTrackingScaling");
     ("TargetTrackingScalingPolicyConfiguration",
      VDict [("TargetValue", VFloat 50);
             ("CustomizedMetricSpecification",
              VDict [("MetricName", VStr "CPUUtilization");
                     ("Namespace", VStr "/aws/sagemaker/Endpoints");
                     ("Dimensions",
                      VList [VDict [("Name", VStr "EndpointName"); ("Value", endpoint2)];
                             VDict [("Name", VStr "VariantName"); ("Value", VStr "AllTraffic")]]);
                     ("Statistic", VStr "Average");
                     ("Unit", VStr "Percent")]);
             ("ScaleInCooldown", VInt 300);
             ("ScaleOutCooldown", VInt 100)])].

(** The two autoscaling cells; [resource_id] is shared between them. *)
Definition cell_autoscaling (predictor : pyval) : prog :=
  asg_client <- sdk VNone "boto3.client" [VStr "application-autoscaling"] [] ;;
  endpoint <- lift (py_getattr predictor "endpoint_name") ;;
  let resource_id := "endpoint/" ++ py_str endpoint ++ "/variant/AllTraffic" in
  invoke (register_scalable_target asg_client resource_id) ;;
  endpoint1 <- lift (py_getattr predictor "endpoint_name") ;;
  endpoint2 <- lift (py_getattr predictor "endpoint_name") ;;
  invoke (put_scaling_policy asg_client resource_id endpoint1 endpoint2).

(** [with ThreadPoolExecutor(max_workers=w) as executor: body].  The
    constructor rejects a non-positive [w].  [executor.submit] only queues
    a task and leaving the block only waits for the pool: neither is a
    call into the SDK, and they are taken not to raise, so the body runs
    to its end and the pool is shut down after it.  The trace of a run is
    what the notebook's own thread does; the queued tasks are run by the
    threads of the pool, see [worker]. *)
Definition ThreadPoolExecutor (max_workers : pyval) (body : prog) : prog :=
  match max_workers with
  | VInt w =>
      if (w <=? 0)%Z then Throw ValueError
      else Emit (PoolCreate w) (body ;; Emit PoolShutdown (Ret VNone))
  | _ => Throw TypeError
  end.

Definition submit (fn : pyval) (fargs : list pyval) : prog :=
  Emit (PoolSubmit fn fargs) (Ret VNone).



Definition requests : nat := 200.

(** [cpu_count] is what [os.cpu_count()] returns: an integer, or [None]
    when the count cannot be determined. *)
Definition cell_load_test (cpu_count predictor data : pyval) : prog :=
  workers <- lift (py_mul cpu_count (VInt 5)) ;;
  print (VStr ("workers used for load test: " ++ py_str workers)) ;;
  ThreadPoolExecutor workers
    (for_range requests (submit (VMethod predictor "predict") [data])).

Definition cpu_url (aws_region endpoint : string) : string :=
  "https://console.aws.amazon.com/cloudwatch/home?region=" ++ aws_region
  ++ "#metricsV2:graph=~(metrics~(~(~'*2faws*2fsagemaker*2fEndpoints~'CPUUtilization~'EndpointName~'"
  ++ stale_endpoint
  ++ "~'VariantName~'AllTraffic))~view~'timeSeries~stacked~false~region~'"
  ++ aws_region
  ++ "~start~'-PT15M~end~'P0D~stat~'Average~period~60);query=~'*7b*2faws*2fsagemaker*2fEndpoints*2cEndpointName*2cVariantName*7d*20"
  ++ stale_endpoint ++ "*20Endpoint*20"
  ++ endpoint
  ++ "*20has*20Current*20Instance*20Count*3a*201*20With*20a*20desired*20instance*20count*20of*201".

Definition cell_cpu_dashboard (aws_region predictor : pyval) : prog :=
  endpoint <- lift (py_getattr predictor "endpoint_name") ;;
  print (VStr (cpu_url (py_str aws_region) (py_str endpoint))).

Definition cell_instance_count (predictor : pyval) : prog :=
  bt_sm <- sdk VNone "boto3.client" [VStr "sagemaker"] [] ;;
  endpoint <- lift (py_getattr predictor "endpoint_name") ;;
  response <- sdk bt_sm "describe_endpoint" [] [("EndpointName", endpoint)] ;;
  name <- lift (py_getitem response (VStr "EndpointName")) ;;
  current <- lift (let? variants := py_getitem response (VStr "ProductionVariants") in
                   let? variant := py_getitem variants (VInt 0) in
                   py_getitem variant (VStr "CurrentInstanceCount")) ;;
  desired <- lift (let? variants := py_getitem response (VStr "ProductionVariants") in
                   let? variant := py_getitem variants (VInt 0) in
                   py_getitem variant (VStr "DesiredInstanceCount")) ;;
  print (VStr ("Endpoint " ++ py_str name ++ " has " ++ nl
               ++ "Current Instance Count: " ++ py_str current ++ nl
               ++ "With a desired instance count of " ++ py_str desired)).

Definition delete_endpoint (predictor : pyval) : call :=
  mkCall predictor "delete_endpoint" [] [].

Definition cell_cleanup (predictor : pyval) : prog :=
  invoke (delete_endpoint predictor).

(** The notebook, run from top to bottom.  [uuid] is the text of
    [uuid4()], [cpu_count] the value of [os.cpu_count()]. *)
Definition notebook (model_id uuid : string) (cpu_count : pyval) : prog :=
  shell ("pip install " ++ dq ++ "sagemaker>=2.66.2" ++ dq ++ " --upgrade") ;;
  huggingface_model <- cell_model model_id uuid ;;
  predictor <- cell_deploy huggingface_model ;;
  aws_region <- lift (boto_region_name predictor) ;;
  invoke (predict predictor data) ;;
  for_range 500 (invoke (predict predictor data)) ;;
  cell_latency_dashboard aws_region predictor ;;
  cell_autoscaling predictor ;;
  cell_load_test cpu_count predictor data ;;
  cell_cpu_dashboard aws_region predictor ;;
  cell_instance_count predictor ;;
  cell_cleanup predictor.

Definition part_000 (uuid : string) (cpu_count : pyval) : prog :=
  notebook HF_MODEL_ID uuid cpu_count.

End Part000.

(** ** The configuration cell shared by [part_001] and the distillation lab *)

Module Config.

(** [sess = sagemaker.Session()], then the default bucket when no bucket
    name is given. *)
Definition session_bucket : prog :=
  sess <- sdk VNone "sagemaker.Session" [] [] ;;
  let sagemaker_session_bucket := VNone in
  if is_none sagemaker_session_bucket && negb (is_none sess)
  then sdk sess "default_bucket" [] []
  else Ret sagemaker_session_bucket.

Definition except_ValueError (e : exn) : bool := exn_eqb e ValueError.

(** [try: role = sagemaker.get_execution_role()] with its
    [except ValueError] fallback to IAM. *)
Definition resolve_role : prog :=
  Try (sdk VNone "sagemaker.get_execution_role" [] [])
      except_ValueError
      (iam <- sdk VNone "boto3.client" [VStr "iam"] [] ;;
       response <- sdk iam "get_role" [] [("RoleName", VStr "sagemaker_execution_role")] ;;
       lift (let? role := py_getitem response (VStr "Role") in
             py_getitem role (VStr "Arn")))
      Ret.

Definition report (role sagemaker_session_bucket : pyval) : prog :=
  sess <- sdk VNone "sagemaker.Session" [] [("default_bucket", sagemaker_session_bucket)] ;;
  print (VStr ("sagemaker role arn: " ++ py_str role)) ;;
  bucket <- sdk sess "default_bucket" [] [] ;;
  print (VStr ("sagemaker bucket: " ++ py_str bucket)) ;;
  region <- lift (py_getattr sess "boto_region_name") ;;
  print (VStr ("sagemaker session region: " ++ py_str region)).

End Config.

(** ** Notebook [part_001]: the inference options *)

Module Part001.

Import Part000(dq).

Definition HuggingFaceModel (kw : list (string * pyval)) (role : pyval) : prog :=
  sdk VNone "HuggingFaceModel" []
    (kw ++ [("role", role);
            ("transformers_version", VStr "4.17");
            ("pytorch_version", VStr "1.10");
            ("py_version", VStr "py38")])%list.

Definition hub (model_id task : string) : pyval :=
  VDict [("HF_MODEL_ID", VStr model_id); ("HF_TASK", VStr task)].

Definition cleanup (predictor : pyval) : prog :=
  sdk predictor "delete_model" [] [] ;;
  sdk predictor "delete_endpoint" [] [].

(** *** 1. Real-time inference, model from the hub *)

Definition deploy_rth (role : pyval) : prog :=
  let hub := hub "distilbert-base-uncased-distilled-squad" "question-answering" in
  huggingface_model_rth <- HuggingFaceModel [("env", hub)] role ;;
  sdk huggingface_model_rth "deploy" []
    [("initial_instance_count", VInt 1); ("instance_type", VStr "ml.g4dn.xlarge")].

Definition data_rth : pyval :=
  VDict [("inputs",
          VDict [("question", VStr "What is used for inference?");
                 ("context",
                  VStr "My Name is Philipp and I live in Nuremberg. This model is used with sagemaker for inference.")])].

(** *** Real-time inference, model from S3 *)

Definition deploy_rts3 (role : pyval) : prog :=
  huggingface_model_rts3 <-
    HuggingFaceModel [("model_data", VStr "s3://hf-sagemaker-inference/model.tar.gz")] role ;;
  sdk huggingface_model_rts3 "deploy" []
    [("initial_instance_count", VInt 1); ("instance_type", VStr "ml.m5.xlarge")].

Definition data_rts3 : pyval :=
  VDict [("inputs",
          VStr "The new Hugging Face SageMaker DLC makes it super easy to deploy models in production. I love it!")].

(** *** 2. Batch transform *)

Definition s3_path_join (parts : list pyval) : prog :=
  sdk VNone "s3_path_join" parts [].

Definition batch_transform (role sagemaker_session_bucket : pyval) : prog :=
  let dataset_jsonl_file := VStr "./tweet_data.jsonl" in
  input_s3_path <-
    s3_path_join [VStr "s3://"; sagemaker_session_bucket; VStr "london/batch_transform/input"] ;;
  output_s3_path <-
    s3_path_join [VStr "s3://"; sagemaker_session_bucket; VStr "london/batch_transform/output"] ;;
  s3_file_uri <- sdk VNone "S3Uploader.upload" [dataset_jsonl_file; input_s3_path] [] ;;
  print (VStr (py_str dataset_jsonl_file ++ " uploaded to " ++ py_str s3_file_uri)) ;;
  let hub := hub "cardiffnlp/twitter-roberta-base-sentiment" "text-classification" in
  huggingface_model <- HuggingFaceModel [("env", hub)] role ;;
  batch_job <- sdk huggingface_model "transformer" []
                 [("instance_count", VInt 1);
                  ("instance_type", VStr "ml.m5.xlarge");
                  ("output_path", output_s3_path);
                  ("strategy", VStr "SingleRecord")] ;;
  sdk batch_job "transform" []
    [("data", s3_file_uri);
     ("content_type", VStr "application/json");
     ("split_type", VStr "Line")].

(** *** 3. Asynchronous inference *)

Definition deploy_async (role sagemaker_session_bucket : pyval) : prog :=
  let hub := hub "distilbert-base-uncased-finetuned-sst-2-english" "text-classification" in
  huggingface_model_async <- HuggingFaceModel [("env", hub)] role ;;
  output_path <-
    s3_path_join [VStr "s3://"; sagemaker_session_bucket; VStr "async_inference/output"] ;;
  async_config <- sdk VNone "AsyncInferenceConfig" [] [("output_path", output_path)] ;;
  sdk huggingface_model_async "deploy" []
    [("initial_instance_count", VInt 1);
     ("instance_type", VStr "ml.g4dn.xlarge");
     ("async_inference_config", async_config)].

Definition data_async : pyval :=
  VDict [("inputs",
          VList [VStr "it 's a charming and often affecting journey .";
                 VStr "it 's slow -- very , very slow";
                 VStr "the mesmerizing performances of the leads keep the film grounded and keep the audience riveted .";
                 VStr "the emotions are raw and will strike a nerve with anyone who 's ever had family trauma ."])].

(** *** 4. Serverless inference *)

Definition deploy_sls (role : pyval) : prog :=
  let hub := hub "facebook/wav2vec2-base-960h" "automatic-speech-recognition" in
  huggingface_model_sls <- HuggingFaceModel [("env", hub)] role ;;
  serverless_config <- sdk VNone "ServerlessInferenceConfig" []
                         [("memory_size_in_mb", VInt 4096); ("max_concurrency", VInt 10)] ;;
  audio_serializer <- sdk VNone "DataSerializer" [] [("content_type", VStr "audio/x-audio")] ;;
  sdk huggingface_model_sls "deploy" []
    [("serverless_inference_config", serverless_config);
     ("serializer", audio_serializer)].

Definition audio_path : pyval := VStr "sample1.flac".

Definition part_001 : prog :=
  shell ("pip install " ++ dq ++ "sagemaker>=2.48.0" ++ dq ++ " --upgrade") ;;
  sagemaker_session_bucket <- Config.session_bucket ;;
  role <- Config.resolve_role ;;
  Config.report role sagemaker_session_bucket ;;
  (* real-time, hub *)
  predictor_rth <- deploy_rth role ;;
  sdk predictor_rth "predict" [data_rth] [] ;;
  cleanup predictor_rth ;;
  (* real-time, S3 *)
  predictor_rts3 <- deploy_rts3 role ;;
  sdk predictor_rts3 "predict" [data_rts3] [] ;;
  cleanup predictor_rts3 ;;
  (* batch transform *)
  batch_transform role sagemaker_session_bucket ;;
  (* asynchronous *)
  async_predictor <- deploy_async role sagemaker_session_bucket ;;
  res <- sdk async_predictor "predict" [] [("data", data_async)] ;;
  print res ;;
  cleanup async_predictor ;;
  (* serverless *)
  predictor_sls <- deploy_sls role ;;
  shell "wget https://cdn-media.huggingface.co/speech_samples/sample1.flac" ;;
  res <- sdk predictor_sls "predict" [] [("data", audio_path)] ;;
  print res ;;
  cleanup predictor_sls.

End Part001.

(** ** Notebook [lab2_knowledge_distillation] *)

Module Lab2.

Definition hyperparameters (hub_token : pyval) : pyval :=
  VDict [("teacher_id", VStr "optimum/roberta-large-finetuned-clinc");
         ("student_id", VStr "nreimers/MiniLMv2-L12-H384-distilled-from-RoBERTa-Large");
         ("dataset_id", VStr "clinc_oos");
         ("dataset_config", VStr "plus");
         ("epochs", VInt 10);
         ("alpha", VFloat (55199695773231194 # 1000000000000000000));
         ("temparature", VInt 19);
         ("learning_rate", VFloat (1 # 10000));
         ("run_hpo", VBool false);
         ("n_trials", VInt 100);
         ("push_to_hub", VBool true);
         ("hub_model_id", VStr "MiniLMv2-L12-H384-distilled-finetuned-clinc");
         ("hub_token", hub_token)].

Definition cell_estimator (role : pyval) : prog :=
  hub_token <- sdk VNone "HfFolder.get_token" [] [] ;;
  let job_name := VStr "knowledge-distillation" in
  sdk VNone "HuggingFace" []
    [("entry_point", VStr "knowledge_distillation.py");
     ("source_dir", VStr "./scripts");
     ("instance_type", VStr "ml.p3.2xlarge");
     ("instance_count", VInt 1);
     ("role", role);
     ("base_job_name", job_name);
     ("transformers_version", VStr "4.17");
     ("pytorch_version", VStr "1.10");
     ("py_version", VStr "py38");
     ("hyperparameters", hyperparameters hub_token)].

Definition sentiment_input : result pyval :=
  let? text := py_mul (VStr "Harry believes it, although no one else believes that Sally is innocent.")
                      (VInt 9) in
  Ok (VDict [("inputs", text)]).

Definition cell_latency_test (predictor : pyval) : prog :=
  sentiment_input <- lift sentiment_input ;;
  for_range 1000 (sdk predictor "predict" [sentiment_input] []).

Definition latency_url (endpoint1 endpoint2 : string) : string :=
  "https://us-east-1.console.aws.amazon.com/cloudwatch/home?region=us-east-1#metricsV2:graph=~(metrics~(~(~'AWS*2fSageMaker~'ModelLatency~'EndpointName~'"
  ++ endpoint1
  ++ "~'VariantName~'AllTraffic))~view~'timeSeries~stacked~false~region~'us-east-1~start~'-PT10M~end~'P0D~stat~'p99~period~300);query=~'*7bAWS*2fSageMaker*2cEndpointName*2cVariantName*7d*20"
  ++ endpoint2.

Definition cell_latency_dashboard (predictor : pyval) : prog :=
  endpoint1 <- lift (py_getattr predictor "endpoint_name") ;;
  endpoint2 <- lift (py_getattr predictor "endpoint_name") ;;
  print (VStr (latency_url (py_str endpoint1) (py_str endpoint2))).

(** An expression statement: the value is computed and dropped. *)
Definition expr (v : pyval) : prog := Ret v.

(** [predictor.delete_model] is written without parentheses: the bound
    method is looked up, not called. *)
Definition cell_cleanup (predictor : pyval) : prog :=
  expr (VMethod predictor "delete_model") ;;
  sdk predictor "delete_endpoint" [] [].

Definition metrics : pyval :=
  VDict [("roberta-large",
          VDict [("time_p99_ms", VInt 322); ("accuracy", VFloat (9644 # 10000));
                 ("size_mb", VInt 1322)]);
         ("minilm-12-h384",
          VDict [("time_p99_ms", VInt 79); ("accuracy", VFloat (9220 # 10000));
                 ("size_mb", VInt 156)])].

Definition lab2_knowledge_distillation : prog :=
  shell "pip install sagemaker huggingface_hub --upgrade" ;;
  sdk VNone "notebook_login" [] [] ;;
  sagemaker_session_bucket <- Config.session_bucket ;;
  role <- Config.resolve_role ;;
  Config.report role sagemaker_session_bucket ;;
  huggingface_estimator <- cell_estimator role ;;
  sdk huggingface_estimator "fit" [] [("wait", VBool false)] ;;
  predictor <- sdk huggingface_estimator "deploy" [VInt 1; VStr "ml.c5.xlarge"] [] ;;
  cell_latency_test predictor ;;
  cell_latency_dashboard predictor ;;
  cell_cleanup predictor ;;
  sdk VNone "plot_metrics" [metrics; VStr "minilm-12-h384"] [].

End Lab2.

(** ** [DistillationTrainer.compute_loss]

    PyTorch is not part of the repository.  Its tensors, the numbers of
    Python and the operations that [compute_loss] applies to them are
    parameters of the model ([Torch]).  Nothing is assumed about the
    floating-point values they compute: what is modelled is which
    operations [compute_loss] applies, in which order, and where it
    raises. *)

Module Distillation.

Record Torch : Type := mkTorch {
  Tensor : Type;                                     (* torch.Tensor *)
  Number : Type;                                     (* a number of Python *)
  size : Tensor -> list nat;                         (* x.size() *)
  one : Number;                                      (* 1.0 *)
  sub : Number -> Number -> Number;                  (* a - b *)
  pow : Number -> Z -> Number;                       (* a ** n *)
  div : Tensor -> Number -> Tensor;                  (* x / a *)
  mul : Tensor -> Number -> Tensor;                  (* x * a *)
  rmul : Number -> Tensor -> Tensor;                 (* a * x *)
  add : Tensor -> Tensor -> Tensor;                  (* x + y *)
  softmax : Tensor -> Tensor;                        (* F.softmax(x, dim=-1) *)
  log_softmax : Tensor -> Tensor;                    (* F.log_softmax(x, dim=-1) *)
  KLDivLoss_batchmean : Tensor -> Tensor -> Tensor
    (* nn.KLDivLoss(reduction="batchmean")(input, target) *)
}.

(** [a == b] on [torch.Size] values. *)
Fixpoint size_eqb (a b : list nat) : bool :=
  match a, b with
  | [], [] => true
  | x :: a', y :: b' => Nat.eqb x y && size_eqb a' b'
  | _, _ => false
  end.

Section DistillationTrainer.

Variable torch : Torch.

(** What a model returns on a batch.  [loss] is [None] when the batch
    carries no labels. *)
Record ModelOutput : Type := mkOutput {
  loss : option (Tensor torch);
  logits : Tensor torch
}.

Record DistillationTrainingArguments : Type := mkArgs {
  alpha : Number torch;
  temperature : Number torch
}.

(** What [compute_loss] returns: [loss], or [(loss, outputs_student)]. *)
Inductive returned : Type :=
| Loss (l : Tensor torch)
| LossAndOutputs (l : Tensor torch) (outputs_student : ModelOutput).

Variable Inputs : Type.
Variable teacher : Inputs -> ModelOutput.            (* self.teacher *)
Variable args : DistillationTrainingArguments.       (* self.args *)

(** The weighted sum is the first place where [student_loss] is used:
    [self.args.alpha * None] raises [TypeError]. *)
Definition compute_loss (model : Inputs -> ModelOutput) (inputs : Inputs)
    (return_outputs : bool) : result returned :=
  let outputs_student := model inputs in
  let student_loss := loss outputs_student in
  let outputs_teacher := teacher inputs in
  if negb (size_eqb (size torch (logits outputs_student))
                    (size torch (logits outputs_teacher)))
  then Raise AssertionError
  else
    let loss_logits :=
      mul torch
        (KLDivLoss_batchmean torch
           (log_softmax torch (div torch (logits outputs_student) (temperature args)))
           (softmax torch (div torch (logits outputs_teacher) (temperature args))))
        (pow torch (temperature args) 2) in
    match student_loss with
    | None => Raise TypeError
    | Some student_loss =>
        let loss :=
          add torch (rmul torch (alpha args) student_loss)
                    (rmul torch (sub torch (one torch) (alpha args)) loss_logits) in
        Ok (if return_outputs then LossAndOutputs loss outputs_student else Loss loss)
    end.

End DistillationTrainer.

Arguments loss {torch} _.
Arguments logits {torch} _.

(** *** A batch of one example over two classes *)

Module Sample.

(** Tensors of PyTorch's [meta] device: a shape and no data.  An
    entry-wise operation keeps the shape, the reduced loss has none. *)
Definition meta : Torch :=
  mkTorch (list nat) Q (fun x => x) 1%Q Qminus Qpower
          (fun x _ => x) (fun x _ => x) (fun _ x => x) (fun x _ => x)
          (fun x => x) (fun x => x) (fun _ _ => []).

Definition teacher (_ : unit) : ModelOutput meta := mkOutput meta None [1; 2]%nat.
Definition student (_ : unit) : ModelOutput meta := mkOutput meta (Some []) [1; 2]%nat.

(** A student with one class more than the teacher. *)
Definition wide_student (_ : unit) : ModelOutput meta := mkOutput meta (Some []) [1; 3]%nat.

(** The student on a batch without labels. *)
Definition unlabelled_student (_ : unit) : ModelOutput meta := mkOutput meta None [1; 2]%nat.

Definition args : DistillationTrainingArguments meta := mkArgs meta (1 # 2) 2.

End Sample.

End Distillation.

(** ** Observations on traces *)

Definition is_call (name : string) (ev : event) : bool :=
  match ev with
  | SdkCall c _ => String.eqb (fname c) name
  | Out _ => false
  end.

(** Events of an endpoint's life: creation by [deploy], and the two
    deletions. *)
Definition endpoint_event (ev : event) : bool :=
  is_call "deploy" ev || is_call "delete_endpoint" ev.

Definition lifecycle_event (ev : event) : bool :=
  is_call "deploy" ev || is_call "delete_model" ev || is_call "delete_endpoint" ev.

Definition autoscaling_event (ev : event) : bool :=
  is_call "register_scalable_target" ev || is_call "put_scaling_policy" ev.

Definition pool_event (ev : event) : bool :=
  match ev with
  | Out (PoolCreate _) | Out (PoolSubmit _ _) | Out PoolShutdown => true
  | _ => false
  end.

(** The prediction an event makes, or hands to the thread pool. *)
Definition prediction (ev : event) : option call :=
  match ev with
  | SdkCall c _ => if String.eqb (fname c) "predict" then Some c else None
  | Out (PoolSubmit (VMethod self name) a) =>
      if String.eqb name "predict" then Some (mkCall self name a []) else None
  | _ => None
  end.

(** The [data] argument of [predict], positional or by keyword. *)
Definition payload (c : call) : option pyval :=
  match args c with
  | d :: _ => Some d
  | [] => lookup "data" (kwargs c)
  end.

Fixpoint predict_payloads (evs : list event) : list (option pyval) :=
  match evs with
  | [] => []
  | ev :: rest =>
      match prediction ev with
      | Some c => payload c :: predict_payloads rest
      | None => predict_payloads rest
      end
  end.

(** A JSON object with an ["inputs"] field and at most a ["parameters"]
    field besides. *)
Definition request_shaped (v : pyval) : bool :=
  match v with
  | VDict kv =>
      existsb (fun p => String.eqb (fst p) "inputs") kv
      && forallb (fun p => String.eqb (fst p) "inputs" || String.eqb (fst p) "parameters") kv
  | _ => false
  end.

Definition is_audio_path (v : pyval) : bool :=
  match v with
  | VStr s => String.eqb s "sample1.flac"
  | _ => false
  end.

(** Every prediction of the event carries a payload accepted by [ok]. *)
Definition sends (ok : pyval -> bool) (ev : event) : bool :=
  match prediction ev with
  | Some c => match payload c with Some d => ok d | None => false end
  | None => true
  end.

(** [always P p]: whatever the services answer, every event of every run
    of [p] satisfies [P]. *)
Definition always (P : event -> Prop) (p : prog) : Prop :=
  forall env h, Forall P (snd (run env p h)).



Definition get_execution_role : call :=
  mkCall VNone "sagemaker.get_execution_role" [] [].





(** *** Strings *)

Fixpoint prefix_of (p s : string) : bool :=
  match p, s with
  | EmptyString, _ => true
  | String a p', String b s' => Ascii.eqb a b && prefix_of p' s'
  | String _ _, EmptyString => false
  end.

Fixpoint contains (needle hay : string) : bool :=
  prefix_of needle hay
  || match hay with
     | EmptyString => false
     | String _ hay' => contains needle hay'
     end.

(** The part of [s] before the first [sep] (all of [s] when there is
    none), and the part after it. *)
Fixpoint before_first (sep : ascii) (s : string) : string :=
  match s with
  | EmptyString => EmptyString
  | String c s' => if Ascii.eqb c sep then EmptyString else String c (before_first sep s')
  end.

Fixpoint after_first (sep : ascii) (s : string) : option string :=
  match s with
  | EmptyString => None
  | String c s' => if Ascii.eqb c sep then Some s' else after_first sep s'
  end.

(** ** Sample environments *)

Module Sample.

Definition session (region : string) : pyval :=
  VObj "Session" [("boto_region_name", VStr region)].

Definition predictor (region : string) (n : nat) : pyval :=
  VObj "HuggingFacePredictor"
    [("endpoint_name", VStr ("endpoint-" ++ string_of_Z (Z.of_nat n)));
     ("sagemaker_session", session region)].

Definition role_arn : pyval :=
  VStr "arn:aws:iam::000000000000:role/sagemaker_execution_role".

Definition description : pyval :=
  VDict [("EndpointName", VStr "endpoint");
         ("ProductionVariants",
          VList [VDict [("CurrentInstanceCount", VInt 1);
                        ("DesiredInstanceCount", VInt 1)]])].

(** Every call succeeds; the session lives in [region]. *)
Definition healthy (region : string) : sdk_env :=
  fun hist c =>
    let f := fname c in
    if String.eqb f "deploy" then Ok (predictor region (List.length hist))
    else if String.eqb f "sagemaker.Session" then Ok (session region)
    else if String.eqb f "default_bucket" then Ok (VStr "sagemaker-bucket")
    else if String.eqb f "sagemaker.get_execution_role" then Ok role_arn
    else if String.eqb f "get_role" then Ok (VDict [("Role", VDict [("Arn", role_arn)])])
    else if String.eqb f "describe_endpoint" then Ok description
    else if String.eqb f "s3_path_join" then Ok (VStr "s3://sagemaker-bucket/path")
    else if String.eqb f "predict" then Ok (VList [VDict [("label", VStr "positive")]])
    else Ok (VObj f []).

(** As [healthy], outside a SageMaker notebook instance:
    [get_execution_role] raises [ValueError]. *)
Definition no_execution_role (region : string) : sdk_env :=
  fun hist c =>
    if String.eqb (fname c) "sagemaker.get_execution_role" then Raise ValueError
    else healthy region hist c.


(** As [healthy], but the service refuses to create endpoints. *)
Definition deploy_refused (region : string) : sdk_env :=
  fun hist c =>
    if String.eqb (fname c) "deploy" then Raise (SdkError "ClientError")
    else healthy region hist c.

End Sample.

(** ** Shapes of traces *)

(** The events the statements below look at: endpoint life cycle,
    predictions, autoscaling calls, thread-pool activity and the
    construction of a serializer. *)
Definition skeleton_event (ev : event) : bool :=
  lifecycle_event ev || autoscaling_event ev || pool_event ev
  || is_call "DataSerializer" ev
  || match prediction ev with Some _ => true | None => false end.

(** Endpoint events in which every endpoint created by [deploy] is next
    deleted by [delete_endpoint] on the predictor [deploy] returned. *)
Inductive torn_down : list event -> Prop :=
| torn_down_nil : torn_down []
| torn_down_cons c predictor r rest :
    fname c = "deploy" ->
    torn_down rest ->
    torn_down (SdkCall c (Ok predictor)
               :: SdkCall (mkCall predictor "delete_endpoint" [] []) (Ok r)
               :: rest).

(** Life-cycle events in which every deployment is followed by
    [delete_model()] and then [delete_endpoint()] on its predictor. *)
Inductive torn_down_with_model : list event -> Prop :=
| with_model_nil : torn_down_with_model []
| with_model_cons c predictor r r' rest :
    fname c = "deploy" ->
    torn_down_with_model rest ->
    torn_down_with_model
      (SdkCall c (Ok predictor)
       :: SdkCall (mkCall predictor "delete_model" [] []) (Ok r)
       :: SdkCall (mkCall predictor "delete_endpoint" [] []) (Ok r')
       :: rest).

(** One served endpoint of [part_001]: deployed, queried once, model and
    endpoint deleted. *)
Definition served (model : pyval) (deploy_kw : list (string * pyval))
    (predictor : pyval) (predict_args : list pyval)
    (predict_kw : list (string * pyval)) (answers : pyval * pyval * pyval) : list event :=
  let '(res, r, r') := answers in
  [SdkCall (mkCall model "deploy" [] deploy_kw) (Ok predictor);
   SdkCall (mkCall predictor "predict" predict_args predict_kw) (Ok res);
   SdkCall (mkCall predictor "delete_model" [] []) (Ok r);
   SdkCall (mkCall predictor "delete_endpoint" [] []) (Ok r')].

(** The endpoint name as the specification words it: the substring of the
    model id after its first ['/'], then ['-'] and the UUID4. *)
Definition name_as_claimed (model_id uuid : string) : result pyval :=
  match after_first "/" model_id with
  | Some rest => Ok (VStr (rest ++ "-" ++ uuid))
  | None => Raise IndexError
  end.

(** What a run printed, in order. *)
Definition displayed (evs : list event) : list pyval :=
  flat_map (fun ev => match ev with Out (Display v) => [v] | _ => [] end) evs.

(** ** Further observations *)



(** Requests sent to the endpoint and autoscaling calls. *)
Definition traffic_event (ev : event) : bool :=
  autoscaling_event ev
  || match prediction ev with Some _ => true | None => false end.

(** Session constructions, calls that move data to S3 or configure where
    results go, model constructions and deployments. *)
Definition dataflow_event (ev : event) : bool :=
  is_call "sagemaker.Session" ev
  || is_call "s3_path_join" ev || is_call "S3Uploader.upload" ev
  || is_call "HuggingFaceModel" ev || is_call "transformer" ev
  || is_call "transform" ev || is_call "AsyncInferenceConfig" ev
  || is_call "ServerlessInferenceConfig" ev || is_call "DataSerializer" ev
  || is_call "deploy" ev.

(** The calls of the batch transform job of [part_001]. *)
Definition batch_event (ev : event) : bool :=
  is_call "S3Uploader.upload" ev || is_call "transformer" ev || is_call "transform" ev.

(** The calls of the training job of the distillation lab. *)
Definition training_event (ev : event) : bool :=
  is_call "HfFolder.get_token" ev || is_call "HuggingFace" ev
  || is_call "fit" ev || is_call "deploy" ev.

(** Where the role of a run comes from: [get_execution_role()], or the
    ARN of the IAM role [sagemaker_execution_role]. *)
Definition role_resolved (evs : list event) (role : pyval) : Prop :=
  evs = [SdkCall get_execution_role (Ok role)]
  \/ exists iam response entry,
       evs = [SdkCall get_execution_role (Raise ValueError);
              SdkCall (mkCall VNone "boto3.client" [VStr "iam"] []) (Ok iam);
              SdkCall (mkCall iam "get_role" []
                         [("RoleName", VStr "sagemaker_execution_role")]) (Ok response)]
       /\ py_getitem response (VStr "Role") = Ok entry
       /\ py_getitem entry (VStr "Arn") = Ok role.

(** The inference configurations and deployments of [part_001]. *)
Definition config_event (ev : event) : bool :=
  is_call "AsyncInferenceConfig" ev || is_call "ServerlessInferenceConfig" ev
  || is_call "deploy" ev.

(** [HuggingFaceModel(<source>, role=role, ...)] as [part_001] writes it. *)
Definition model_call (source : string * pyval) (role : pyval) : call :=
  mkCall VNone "HuggingFaceModel" []
    [source; ("role", role);
     ("transformers_version", VStr "4.17");
     ("pytorch_version", VStr "1.10");
     ("py_version", VStr "py38")].

Definition path_join_call (bucket : pyval) (key : string) : call :=
  mkCall VNone "s3_path_join" [VStr "s3://"; bucket; VStr key] [].

Definition session_call (kw : list (string * pyval)) : call :=
  mkCall VNone "sagemaker.Session" [] kw.

(** The values that flow through a complete run of [part_001]. *)
Record flow : Type := mkFlow {
  sess0 : pyval; bucket : pyval; sess1 : pyval; role : pyval;
  model_rth : pyval; predictor_rth : pyval;
  model_rts3 : pyval; predictor_rts3 : pyval;
  input_s3_path : pyval; output_s3_path : pyval; s3_file_uri : pyval;
  model_batch : pyval; batch_job : pyval; transformed : pyval;
  model_async : pyval; async_path : pyval; async_config : pyval; async_predictor : pyval;
  model_sls : pyval; serverless_config : pyval; audio_serializer : pyval;
  predictor_sls : pyval
}.

(** The data-flow events of such a run, in order. *)
Definition flow_events (f : flow) : list event :=
  [SdkCall (session_call []) (Ok (sess0 f));
   SdkCall (session_call [("default_bucket", bucket f)]) (Ok (sess1 f));
   SdkCall (model_call ("env", Part001.hub "distilbert-base-uncased-distilled-squad"
                                           "question-answering") (role f))
           (Ok (model_rth f));
   SdkCall (mkCall (model_rth f) "deploy" []
              [("initial_instance_count", VInt 1); ("instance_type", VStr "ml.g4dn.xlarge")])
           (Ok (predictor_rth f));
   SdkCall (model_call ("model_data", VStr "s3://hf-sagemaker-inference/model.tar.gz")
                       (role f))
           (Ok (model_rts3 f));
   SdkCall (mkCall (model_rts3 f) "deploy" []
              [("initial_instance_count", VInt 1); ("instance_type", VStr "ml.m5.xlarge")])
           (Ok (predictor_rts3 f));
   SdkCall (path_join_call (bucket f) "london/batch_transform/input") (Ok (input_s3_path f));
   SdkCall (path_join_call (bucket f) "london/batch_transform/output")
           (Ok (output_s3_path f));
   SdkCall (mkCall VNone "S3Uploader.upload" [VStr "./tweet_data.jsonl"; input_s3_path f] [])
           (Ok (s3_file_uri f));
   SdkCall (model_call ("env", Part001.hub "cardiffnlp/twitter-roberta-base-sentiment"
                                           "text-classification") (role f))
           (Ok (model_batch f));
   SdkCall (mkCall (model_batch f) "transformer" []
              [("instance_count", VInt 1);
               ("instance_type", VStr "ml.m5.xlarge");
               ("output_path", output_s3_path f);
               ("strategy", VStr "SingleRecord")])
           (Ok (batch_job f));
   SdkCall (mkCall (batch_job f) "transform" []
              [("data", s3_file_uri f);
               ("content_type", VStr "application/json");
               ("split_type", VStr "Line")])
           (Ok (transformed f));
   SdkCall (model_call ("env", Part001.hub "distilbert-base-uncased-finetuned-sst-2-english"
                                           "text-classification") (role f))
           (Ok (model_async f));
   SdkCall (path_join_call (bucket f) "async_inference/output") (Ok (async_path f));
   SdkCall (mkCall VNone "AsyncInferenceConfig" [] [("output_path", async_path f)])
           (Ok (async_config f));
   SdkCall (mkCall (model_async f) "deploy" []
              [("initial_instance_count", VInt 1);
               ("instance_type", VStr "ml.g4dn.xlarge");
               ("async_inference_config", async_config f)])
           (Ok (async_predictor f));
   SdkCall (model_call ("env", Part001.hub "facebook/wav2vec2-base-960h"
                                           "automatic-speech-recognition") (role f))
           (Ok (model_sls f));
   SdkCall (mkCall VNone "ServerlessInferenceConfig" []
              [("memory_size_in_mb", VInt 4096); ("max_concurrency", VInt 10)])
           (Ok (serverless_config f));
   SdkCall (mkCall VNone "DataSerializer" [] [("content_type", VStr "audio/x-audio")])
           (Ok (audio_serializer f));
   SdkCall (mkCall (model_sls f) "deploy" []
              [("serverless_inference_config", serverless_config f);
               ("serializer", audio_serializer f)])
           (Ok (predictor_sls f))].

(** [a] is immediately followed by [b] in the trace. *)
Definition adjacent (a b : event) (evs : list event) : Prop :=
  exists before after, evs = (before ++ a :: b :: after)%list.

(** * Properties *)

#[local] Arguments Part000.requests : simpl never.
#[local] Arguments String.append : simpl never.

(** ** The Python operations on examples *)

Example split_three : split "/" "a/b/c" = ["a"; "b"; "c"].
Proof. reflexivity. Qed.

Example split_no_separator : split "/" "gpt2" = ["gpt2"].
Proof. reflexivity. Qed.

Example split_empty : split "/" "" = [""].
Proof. reflexivity. Qed.

Example split_trailing : split "/" "a/" = ["a"; ""].
Proof. reflexivity. Qed.

Example getitem_last : py_getitem (VList [VInt 1; VInt 2]) (VInt (-1)) = Ok (VInt 2).
Proof. reflexivity. Qed.

Example getitem_out_of_range : py_getitem (VList [VInt 1; VInt 2]) (VInt 2) = Raise IndexError.
Proof. reflexivity. Qed.

Example getitem_missing_key : py_getitem (VDict [("a", VNone)]) (VStr "b") = Raise KeyError.
Proof. reflexivity. Qed.

Example mul_none : py_mul VNone (VInt 5) = Raise TypeError.
Proof. reflexivity. Qed.

Example str_of_workers : py_str (VInt 20) = "20".
Proof. reflexivity. Qed.

Example finbert_name :
  Part000.endpoint_name (Part000.hub Part000.HF_MODEL_ID) "u" = Ok (VStr "finbert-tone-u").
Proof. reflexivity. Qed.

(** Outside SageMaker the role comes from IAM. *)
Example resolve_role_from_iam :
  run (Sample.no_execution_role "eu-west-1") Config.resolve_role [] =
    (Ok Sample.role_arn,
     [SdkCall get_execution_role (Raise ValueError);
      SdkCall (mkCall VNone "boto3.client" [VStr "iam"] []) (Ok (VObj "boto3.client" []));
      SdkCall (mkCall (VObj "boto3.client" []) "get_role" []
                 [("RoleName", VStr "sagemaker_execution_role")])
              (Ok (VDict [("Role", VDict [("Arn", Sample.role_arn)])]))]).
Proof. reflexivity. Qed.

(** A run of [part_000] in which [deploy] is refused stops there. *)
Example deploy_refused_stops_the_run :
  fst (run (Sample.deploy_refused "eu-west-1") (Part000.part_000 "u" (VInt 4)) [])
    = Raise (SdkError "ClientError")
  /\ List.length (snd (run (Sample.deploy_refused "eu-west-1")
                           (Part000.part_000 "u" (VInt 4)) [])) = 4%nat.
Proof. split; reflexivity. Qed.

(** ** Running scripts *)

Lemma run_bind env p : forall f h,
  run env (bind p f) h =
  match run env p h with
  | (Ok v, evs) => let (r, evs') := run env (f v) (h ++ evs)%list in (r, (evs ++ evs')%list)
  | (Raise e, evs) => (Raise e, evs)
  end.
Proof.
  induction p as [v|e|c k IH|o k IH|body IHb catches handler IHh k IH]; intros f h; simpl.
  - rewrite app_nil_r. destruct (run env (f v) h); reflexivity.
  - reflexivity.
  - destruct (env h c) as [v|e]; [|reflexivity].
    rewrite IH. destruct (run env (k v) _) as [[v'|e'] evs]; [|reflexivity].
    rewrite <- app_assoc. simpl.
    destruct (run env (f v') _); rewrite <- ?app_assoc; reflexivity.
  - rewrite IH. destruct (run env k _) as [[v'|e'] evs]; [|reflexivity].
    rewrite <- app_assoc. simpl.
    destruct (run env (f v') _); rewrite <- ?app_assoc; reflexivity.
  - destruct (run env body h) as [[v|e] evb].
    + rewrite IH. destruct (run env (k v) _) as [[v'|e'] evs]; [|reflexivity].
      rewrite <- !app_assoc.
      destruct (run env (f v') _); rewrite <- ?app_assoc; reflexivity.
    + destruct (catches e); [|reflexivity].
      destruct (run env handler _) as [[v|e'] evh]; [|reflexivity].
      rewrite IH. destruct (run env (k v) _) as [[v'|e''] evs]; [|reflexivity].
      rewrite <- !app_assoc.
      destruct (run env (f v') _); rewrite <- ?app_assoc; reflexivity.
Qed.

Lemma run_bind_Ok env p f h v evs :
  run env (bind p f) h = (Ok v, evs) ->
  exists v1 evs1 evs2,
    run env p h = (Ok v1, evs1) /\
    run env (f v1) (h ++ evs1)%list = (Ok v, evs2) /\
    evs = (evs1 ++ evs2)%list.
Proof.
  rewrite run_bind. destruct (run env p h) as [[v1|e1] evs1]; [|discriminate].
  destruct (run env (f v1) _) as [r evs2] eqn:E. intros [= -> <-].
  exists v1, evs1, evs2. auto.
Qed.

Lemma run_invoke_Ok env c h v evs :
  run env (invoke c) h = (Ok v, evs) ->
  evs = [SdkCall c (Ok v)].
Proof.
  simpl. destruct (env h c); intros [= <- <-]; reflexivity.
Qed.

Lemma run_lift_Ok env x h v evs :
  run env (lift x) h = (Ok v, evs) -> x = Ok v /\ evs = [].
Proof. destruct x; simpl; intros [= <- <-]; auto. Qed.

Lemma run_Emit_Ok env o k h v evs :
  run env (Emit o k) h = (Ok v, evs) ->
  exists evs', run env k (h ++ [Out o])%list = (Ok v, evs') /\ evs = Out o :: evs'.
Proof.
  simpl. destruct (run env k _) as [r evs']. intros [= -> <-]. eauto.
Qed.

Lemma run_for_range_invoke_Ok env c n : forall h v evs,
  run env (for_range n (invoke c)) h = (Ok v, evs) ->
  exists rs, List.length rs = n /\
             evs = map (fun x => SdkCall c (Ok x)) rs.
Proof.
  induction n as [|n IH]; intros h v evs; simpl.
  - intros [= <- <-]. exists []. auto.
  - destruct (env h _) as [x|e]; [|discriminate].
    destruct (run env (for_range n _) _) as [r' evs'] eqn:E.
    intros [= -> <-]. apply IH in E. destruct E as (rs & <- & ->).
    exists (x :: rs). auto.
Qed.

Lemma run_for_range_submit env fn fa n : forall h,
  run env (for_range n (Part000.submit fn fa)) h =
  (Ok VNone, repeat (Out (PoolSubmit fn fa)) n).
Proof.
  induction n as [|n IH]; intros h; simpl; [reflexivity|].
  rewrite IH. reflexivity.
Qed.

(** The role is either the execution role, or the one read from IAM after
    [get_execution_role] raised [ValueError]. *)
Lemma run_resolve_role_Ok env h role evs :
  run env Config.resolve_role h = (Ok role, evs) ->
  evs = [SdkCall get_execution_role (Ok role)]
  \/ exists iam response,
       evs = [SdkCall get_execution_role (Raise ValueError);
              SdkCall (mkCall VNone "boto3.client" [VStr "iam"] []) (Ok iam);
              SdkCall (mkCall iam "get_role" []
                         [("RoleName", VStr "sagemaker_execution_role")]) (Ok response)].
Proof.
  unfold Config.resolve_role. simpl.
  change (mkCall VNone "sagemaker.get_execution_role" [] []) with get_execution_role.
  destruct (env h get_execution_role) as [v|e]; simpl.
  - intros [= <- <-]. left. reflexivity.
  - destruct e; simpl; try discriminate.
    destruct (env _ _) as [iam|e]; simpl; [|discriminate].
    destruct (env _ _) as [response|e]; simpl; [|discriminate].
    destruct (rbind _ _) as [x|e]; simpl; [|discriminate].
    intros [= <- <-]. right. exists iam, response. reflexivity.
Qed.

Ltac head t := lazymatch t with ?f _ => head f | _ => t end.

(** Decompose a successful run along the structure of the script. *)
Ltac inv_run H :=
  cbv beta zeta in H;
  lazymatch type of H with
  | run _ (bind _ _) _ = (Ok _, _) =>
      let v := fresh "v" in
      let e1 := fresh "evs" in
      let e2 := fresh "evs" in
      let H1 := fresh "R" in
      let H2 := fresh "R" in
      apply run_bind_Ok in H; destruct H as (v & e1 & e2 & H1 & H2 & ->);
      inv_run H2; inv_run H1
  | run _ (invoke _) _ = (Ok _, _) => apply run_invoke_Ok in H; subst
  | run _ (lift _) _ = (Ok _, _) => apply run_lift_Ok in H; destruct H as [H ->]
  | run _ Config.resolve_role _ = (Ok _, _) =>
      let iam := fresh "iam" in
      let response := fresh "response" in
      apply run_resolve_role_Ok in H; destruct H as [->|(iam & response & ->)]
  | run _ (for_range _ (invoke _)) _ = (Ok _, _) =>
      let rs := fresh "rs" in
      let L := fresh "L" in
      apply run_for_range_invoke_Ok in H; destruct H as (rs & L & ->)
  | run _ (for_range _ (Part000.submit _ _)) _ = _ =>
      let Hv := fresh in
      rewrite run_for_range_submit in H;
      apply pair_equal_spec in H; destruct H as [Hv <-]; injection Hv as <-
  | run _ (for_range _ ?b) _ = _ =>
      let h := head b in unfold h in H; inv_run H
  | run _ (Ret _) _ = _ =>
      let Hv := fresh in
      simpl in H; apply pair_equal_spec in H; destruct H as [Hv <-]; injection Hv as <-
  | run _ (Throw _) _ = (Ok _, _) => discriminate H
  | run _ (Emit _ _) _ = _ =>
      let e := fresh "evs" in
      let E := fresh "R" in
      apply run_Emit_Ok in H; destruct H as (e & E & ->); inv_run E
  | run _ (if ?b then _ else _) _ = _ => destruct b eqn:?; inv_run H
  | run _ (match ?x with _ => _ end) _ = _ => destruct x eqn:?; inv_run H
  | run _ ?p _ = _ => let h := head p in unfold h in H; inv_run H
  end.

Lemma filter_map_sdk (P : event -> bool) c rs :
  (forall r, P (SdkCall c r) = false) ->
  filter P (map (fun x => SdkCall c (Ok x)) rs) = [].
Proof. intros H. induction rs; simpl; [|rewrite H]; auto. Qed.

Lemma filter_map_sdk_true (P : event -> bool) c rs :
  (forall r, P (SdkCall c r) = true) ->
  filter P (map (fun x => SdkCall c (Ok x)) rs) = map (fun x => SdkCall c (Ok x)) rs.
Proof. intros H. induction rs; simpl; [|rewrite H, IHrs]; auto. Qed.

Lemma filter_repeat_false (P : event -> bool) x n :
  P x = false -> filter P (repeat x n) = [].
Proof. intros H. induction n; simpl; [|rewrite H]; auto. Qed.

Lemma filter_repeat_true (P : event -> bool) x n :
  P x = true -> filter P (repeat x n) = repeat x n.
Proof. intros H. induction n; simpl; [|rewrite H, IHn]; auto. Qed.

Ltac filter_trace :=
  repeat (rewrite ?filter_app; simpl;
          rewrite ?filter_map_sdk by reflexivity;
          rewrite ?filter_map_sdk_true by reflexivity;
          rewrite ?filter_repeat_false by reflexivity;
          rewrite ?filter_repeat_true by reflexivity;
          simpl).

Lemma filter_sub {A} (P Q : A -> bool) (l : list A) :
  (forall x, P x = true -> Q x = true) ->
  filter P l = filter P (filter Q l).
Proof.
  intros H. induction l as [|x l IH]; simpl; [reflexivity|].
  destruct (Q x) eqn:EQ; simpl.
  - rewrite <- IH. reflexivity.
  - destruct (P x) eqn:EP; [|assumption].
    apply H in EP. congruence.
Qed.

(** ** Skeletons of the successful runs *)

Lemma part_001_skeleton env v evs :
  run env Part001.part_001 [] = (Ok v, evs) ->
  exists m1 p1 a1 m2 p2 a2 m3 c3 p3 a3 m4 c4 audio_serializer p4 a4,
    filter skeleton_event evs =
      (served m1 [("initial_instance_count", VInt 1); ("instance_type", VStr "ml.g4dn.xlarge")]
              p1 [Part001.data_rth] [] a1
       ++ served m2 [("initial_instance_count", VInt 1); ("instance_type", VStr "ml.m5.xlarge")]
                 p2 [Part001.data_rts3] [] a2
       ++ served m3 [("initial_instance_count", VInt 1);
                     ("instance_type", VStr "ml.g4dn.xlarge");
                     ("async_inference_config", c3)]
                 p3 [] [("data", Part001.data_async)] a3
       ++ SdkCall (mkCall VNone "DataSerializer" [] [("content_type", VStr "audio/x-audio")])
                  (Ok audio_serializer)
       :: served m4 [("serverless_inference_config", c4); ("serializer", audio_serializer)]
                 p4 [] [("data", Part001.audio_path)] a4)%list.
Proof.
  intros H. inv_run H; filter_trace.
  all: match goal with
       | |- context [SdkCall (mkCall ?p1 "predict" [Part001.data_rth] []) (Ok ?x1)
                     :: SdkCall _ (Ok ?y1) :: SdkCall _ (Ok ?z1)
                     :: SdkCall _ (Ok ?p2) :: SdkCall _ (Ok ?x2)
                     :: SdkCall _ (Ok ?y2) :: SdkCall _ (Ok ?z2)
                     :: SdkCall _ (Ok ?p3) :: SdkCall _ (Ok ?x3)
                     :: SdkCall _ (Ok ?y3) :: SdkCall _ (Ok ?z3)
                     :: SdkCall _ (Ok ?s4)
                     :: SdkCall _ (Ok ?p4) :: SdkCall _ (Ok ?x4)
                     :: SdkCall _ (Ok ?y4) :: SdkCall _ (Ok ?z4) :: _] =>
           do 2 eexists; exists (x1, y1, z1);
           do 2 eexists; exists (x2, y2, z2);
           do 3 eexists; exists (x3, y3, z3);
           do 4 eexists; exists (x4, y4, z4)
       end; reflexivity.
Qed.

Ltac same_reads :=
  repeat match goal with
         | H1 : ?x = Ok ?a, H2 : ?x = Ok ?b |- _ =>
             let E := fresh in
             assert (E : a = b) by congruence; subst b; clear H2
         end.

Lemma py_mul_int cpu k w :
  py_mul cpu (VInt k) = Ok (VInt w) -> exists n, cpu = VInt n /\ w = (n * k)%Z.
Proof.
  destruct cpu; simpl; try discriminate.
  intros [= <-]. eauto.
Qed.

Lemma part_000_skeleton env model_id u cpu v evs :
  run env (Part000.notebook model_id u cpu) [] = (Ok v, evs) ->
  exists n model predictor endpoint asg_client r0 rs r1 r2,
    cpu = VInt n /\ (0 < n)%Z /\
    py_getattr predictor "endpoint_name" = Ok endpoint /\
    List.length rs = 500%nat /\
    let resource_id := "endpoint/" ++ py_str endpoint ++ "/variant/AllTraffic" in
    filter skeleton_event evs =
      (SdkCall (Part000.deploy model) (Ok predictor)
       :: SdkCall (Part000.predict predictor Part000.data) (Ok r0)
       :: map (fun x => SdkCall (Part000.predict predictor Part000.data) (Ok x)) rs
       ++ [SdkCall (Part000.register_scalable_target asg_client resource_id) (Ok r1);
           SdkCall (Part000.put_scaling_policy asg_client resource_id endpoint endpoint) (Ok r2);
           Out (PoolCreate (n * 5))]
       ++ repeat (Out (PoolSubmit (VMethod predictor "predict") [Part000.data]))
                 Part000.requests
       ++ [Out PoolShutdown; SdkCall (Part000.delete_endpoint predictor) (Ok v)])%list.
Proof.
  intros H. inv_run H. same_reads.
  match goal with
  | M : py_mul _ _ = Ok (VInt _) |- _ => apply py_mul_int in M; destruct M as (n0 & -> & ->)
  end.
  match goal with
  | L : (_ <=? 0)%Z = false |- _ => apply Z.leb_gt in L
  end.
  generalize Part000.requests as k; intro k.
  filter_trace.
  do 9 eexists.
  split; [reflexivity|]. split; [lia|]. split; [eassumption|]. split; [eassumption|].
  cbv zeta. rewrite <- ?app_assoc. reflexivity.
Qed.

Lemma lab2_skeleton env v evs :
  run env Lab2.lab2_knowledge_distillation [] = (Ok v, evs) ->
  exists estimator predictor d rs r,
    Lab2.sentiment_input = Ok d /\
    List.length rs = 1000%nat /\
    filter skeleton_event evs =
      (SdkCall (mkCall estimator "deploy" [VInt 1; VStr "ml.c5.xlarge"] []) (Ok predictor)
       :: map (fun x => SdkCall (mkCall predictor "predict" [d] []) (Ok x)) rs
       ++ [SdkCall (mkCall predictor "delete_endpoint" [] []) (Ok r)])%list.
Proof.
  intros H. inv_run H; filter_trace.
  all: do 5 eexists; split; [eassumption|split; [eassumption|reflexivity]].
Qed.

(** ** Properties of every run *)

Lemma always_bind P p f :
  always P p -> (forall v, always P (f v)) -> always P (bind p f).
Proof.
  intros Hp Hf env h. rewrite run_bind.
  specialize (Hp env h). destruct (run env p h) as [[v|e] evs]; simpl in *; [|assumption].
  specialize (Hf v env (h ++ evs)%list).
  destruct (run env (f v) _) as [r evs']. simpl in *.
  apply Forall_app. auto.
Qed.

Lemma always_invoke (P : event -> Prop) c :
  (forall r, P (SdkCall c r)) -> always P (invoke c).
Proof.
  intros H env h. simpl. destruct (env h c); simpl; repeat constructor; apply H.
Qed.

Lemma always_lift P x : always P (lift x).
Proof. intros env h. destruct x; simpl; constructor. Qed.

Lemma always_bind_lift P x f :
  (forall v, x = Ok v -> always P (f v)) -> always P (bind (lift x) f).
Proof.
  intros H. destruct x as [v|e]; simpl.
  - apply H. reflexivity.
  - intros env h. constructor.
Qed.

Lemma always_Ret P v : always P (Ret v).
Proof. intros env h. constructor. Qed.

Lemma always_Throw P e : always P (Throw e).
Proof. intros env h. constructor. Qed.

Lemma always_Emit (P : event -> Prop) o k :
  P (Out o) -> always P k -> always P (Emit o k).
Proof.
  intros Ho Hk env h. simpl. specialize (Hk env (h ++ [Out o])%list).
  destruct (run env k _) as [r evs]. simpl in *. constructor; assumption.
Qed.

Lemma always_for_range P n body :
  always P body -> always P (for_range n body).
Proof.
  intros Hb. induction n as [|n IH]; simpl.
  - apply always_Ret.
  - apply always_bind; auto.
Qed.

Lemma always_Try P body catches handler k :
  always P body -> always P handler -> (forall v, always P (k v)) ->
  always P (Try body catches handler k).
Proof.
  intros Hb Hh Hk env h. simpl.
  specialize (Hb env h). destruct (run env body h) as [[v|e] evb]; simpl in *.
  - specialize (Hk v env (h ++ evb)%list).
    destruct (run env (k v) _) as [r evs]. simpl in *. apply Forall_app. auto.
  - destruct (catches e); [|assumption].
    specialize (Hh env (h ++ evb)%list).
    destruct (run env handler _) as [[v|e'] evh]; simpl in *.
    + specialize (Hk v env (h ++ evb ++ evh)%list).
      destruct (run env (k v) _) as [r evs]. simpl in *.
      repeat (apply Forall_app; split); auto.
    + apply Forall_app. auto.
Qed.

(** Establish [always P] along the structure of the script; what is left
    are the obligations [P ev] for the events of the script. *)
Ltac always_step :=
  cbv beta zeta;
  lazymatch goal with
  | |- always _ (bind (lift _) _) => apply always_bind_lift; intros ? ?
  | |- always _ (bind _ _) => apply always_bind; [|intro]
  | |- always _ (invoke _) => apply always_invoke; intro
  | |- always _ (lift _) => apply always_lift
  | |- always _ (Ret _) => apply always_Ret
  | |- always _ (Throw _) => apply always_Throw
  | |- always _ (Emit _ _) => apply always_Emit
  | |- always _ (for_range _ _) => apply always_for_range
  | |- always _ (Try _ _ _ _) => apply always_Try; [| |intro]
  | |- always _ (if ?b then _ else _) => destruct b
  | |- always _ (match ?x with _ => _ end) => destruct x
  | |- always _ ?p => let h := head p in unfold h
  end.

Ltac always_auto := repeat always_step.

Lemma predict_payloads_filter (P : event -> bool) evs :
  (forall ev c, prediction ev = Some c -> P ev = true) ->
  predict_payloads (filter P evs) = predict_payloads evs.
Proof.
  intros H. induction evs as [|ev evs IH]; simpl; [reflexivity|].
  destruct (prediction ev) as [c|] eqn:E.
  - rewrite (H ev c E). simpl. rewrite E, IH. reflexivity.
  - destruct (P ev); simpl; rewrite ?E; exact IH.
Qed.

Lemma skeleton_of_prediction ev c : prediction ev = Some c -> skeleton_event ev = true.
Proof.
  intros E. unfold skeleton_event. rewrite E. apply orb_true_r.
Qed.

Lemma Forall_forallb {A} (P : A -> bool) l :
  Forall (fun x => P x = true) l -> forallb P l = true.
Proof. intros H. apply forallb_forall. apply Forall_forall. exact H. Qed.

(** ** Propagation of exceptions *)















(** ** Exceptions inside the thread pool *)






(** ** Strings *)

Lemma split_before_after sep s :
  split sep s =
  before_first sep s
  :: match after_first sep s with
     | Some rest => split sep rest
     | None => []
     end.
Proof.
  induction s as [|c s IH]; simpl; [reflexivity|].
  destruct (Ascii.eqb c sep); [reflexivity|].
  rewrite IH. reflexivity.
Qed.

Lemma before_first_all sep s :
  after_first sep s = None -> before_first sep s = s.
Proof.
  induction s as [|c s IH]; simpl; [reflexivity|].
  destruct (Ascii.eqb c sep); [discriminate|].
  intros H. rewrite IH by exact H. reflexivity.
Qed.

Lemma append_inj_l (a b c : string) : (a ++ b = a ++ c)%string -> b = c.
Proof.
  induction a as [|x a IH]; simpl; [auto|].
  intros [= H]. auto.
Qed.

(** Indexing a list at position 1. *)
Lemma py_getitem_1 l :
  py_getitem (VList l) (VInt 1) =
  match nth_error l 1 with
  | Some x => Ok x
  | None => Raise IndexError
  end.
Proof.
  unfold py_getitem, py_index. simpl Z.ltb. cbv iota.
  destruct (1 <? Z.of_nat (List.length l))%Z eqn:E.
  - reflexivity.
  - apply Z.ltb_ge in E.
    assert (H : nth_error l 1 = None) by (apply nth_error_None; lia).
    rewrite H. reflexivity.
Qed.

Lemma endpoint_name_segment model_id uuid :
  Part000.endpoint_name (Part000.hub model_id) uuid =
  match after_first "/" model_id with
  | Some rest => Ok (VStr (before_first "/" rest ++ "-" ++ uuid))
  | None => Raise IndexError
  end.
Proof.
  unfold Part000.endpoint_name, Part000.hub.
  change (py_getitem (VDict _) (VStr "HF_MODEL_ID")) with (Ok (VStr model_id)).
  cbn [rbind py_split]. rewrite py_getitem_1, split_before_after.
  destruct (after_first "/" model_id) as [rest|]; simpl; [|reflexivity].
  rewrite split_before_after. reflexivity.
Qed.


(** ** Shapes *)

Lemma size_eqb_eq a b : Distillation.size_eqb a b = true <-> a = b.
Proof.
  revert b. induction a as [|x a IH]; intros [|y b]; simpl; split;
    try reflexivity; try discriminate.
  - rewrite andb_true_iff, Nat.eqb_eq, IH. intros [-> ->]. reflexivity.
  - intros [= -> ->]. rewrite Nat.eqb_refl. apply IH. reflexivity.
Qed.

(** * The claims *)

(** ** Payloads of predictions *)

(** C2, as stated, fails: in a run of [part_001] against healthy services
    the serverless prediction sends the path of an audio file, which is
    not a JSON object with an ["inputs"] field. *)
Lemma serverless_payload_is_not_a_request :
  ~ always (fun ev => sends request_shaped ev = true) Part001.part_001.
Proof.
  intros H. specialize (H (Sample.healthy "eu-west-1") []).
  apply Forall_forallb in H. vm_compute in H. discriminate H.
Qed.

(** C2, amended: every payload a [predict] call sends is a JSON object
    with an ["inputs"] field (and at most ["parameters"] besides), in
    every run of [part_000] and of the distillation lab, and in
    [part_001] for the real-time and asynchronous endpoints; the
    serverless [predict] of [part_001] is given the audio file path
    ["sample1.flac"] instead, on a predictor deployed with a
    [DataSerializer] of content type [audio/x-audio].  A complete run of
    [part_001] sends exactly the four payloads [data_rth], [data_rts3],
    [data_async] and the audio path, in this order. *)
Theorem predict_payloads_by_notebook :
  (forall model_id uuid cpu_count,
      always (fun ev => sends request_shaped ev = true)
             (Part000.notebook model_id uuid cpu_count))
  /\ always (fun ev => sends request_shaped ev = true) Lab2.lab2_knowledge_distillation
  /\ always (fun ev => sends (fun d => request_shaped d || is_audio_path d) ev = true)
            Part001.part_001
  /\ (forall env v evs,
        run env Part001.part_001 [] = (Ok v, evs) ->
        predict_payloads evs =
          [Some Part001.data_rth; Some Part001.data_rts3;
           Some Part001.data_async; Some (VStr "sample1.flac")]
        /\ exists model config audio_serializer predictor_sls res,
             In (SdkCall (mkCall VNone "DataSerializer" []
                            [("content_type", VStr "audio/x-audio")])
                         (Ok audio_serializer)) evs
             /\ In (SdkCall (mkCall model "deploy" []
                               [("serverless_inference_config", config);
                                ("serializer", audio_serializer)])
                            (Ok predictor_sls)) evs
             /\ In (SdkCall (mkCall predictor_sls "predict" []
                               [("data", VStr "sample1.flac")])
                            (Ok res)) evs).
Proof.
  split; [|split; [|split]].
  - intros model_id uuid cpu_count. always_auto; reflexivity.
  - always_auto; try reflexivity.
    match goal with
    | E : Lab2.sentiment_input = Ok _ |- _ => vm_compute in E; injection E as <-
    end.
    reflexivity.
  - always_auto; reflexivity.
  - intros env v evs H.
    rewrite <- (predict_payloads_filter skeleton_event) by exact skeleton_of_prediction.
    apply part_001_skeleton in H.
    destruct H as (m1 & p1 & [[x1 y1] z1] & m2 & p2 & [[x2 y2] z2] & m3 & c3 & p3
                   & [[x3 y3] z3] & m4 & c4 & s4 & p4 & [[x4 y4] z4] & H).
    rewrite H. split; [reflexivity|].
    exists m4, c4, s4, p4, x4.
    repeat split; apply (filter_In skeleton_event); rewrite H; simpl; auto 20.
Qed.

Lemma predict_payloads_by_notebook_witness :
  predict_payloads (snd (run (Sample.healthy "eu-west-1") Part001.part_001 [])) =
    [Some Part001.data_rth; Some Part001.data_rts3;
     Some Part001.data_async; Some (VStr "sample1.flac")].
Proof.
  apply (proj2 (proj2 (proj2 predict_payloads_by_notebook))
           (Sample.healthy "eu-west-1") (VObj "delete_endpoint" [])).
  vm_compute. reflexivity.
Defined.

(** ** Exceptions *)




(** ** Autoscaling *)

(** C4: a complete run of [part_000] makes exactly one
    [register_scalable_target] call, for the desired instance count of the
    deployed endpoint's [AllTraffic] variant with capacities 1 to 4, and
    then exactly one [put_scaling_policy] call: target tracking of the
    average [CPUUtilization] of that endpoint and variant, target value
    50 percent, scale-in cooldown 300, scale-out cooldown 100. *)
Theorem autoscaling_configuration env uuid cpu_count v evs :
  run env (Part000.part_000 uuid cpu_count) [] = (Ok v, evs) ->
  exists model predictor endpoint asg_client r1 r2,
    In (SdkCall (Part000.deploy model) (Ok predictor)) evs /\
    py_getattr predictor "endpoint_name" = Ok endpoint /\
    let resource_id := VStr ("endpoint/" ++ py_str endpoint ++ "/variant/AllTraffic") in
    filter autoscaling_event evs =
      [SdkCall
         (mkCall asg_client "register_scalable_target" []
            [("ServiceNamespace", VStr "sagemaker");
             ("ResourceId", resource_id);
             ("ScalableDimension", VStr "sagemaker:variant:DesiredInstanceCount");
             ("MinCapacity", VInt 1);
             ("MaxCapacity", VInt 4)])
         (Ok r1);
       SdkCall
         (mkCall asg_client "put_scaling_policy" []
            [("PolicyName", VStr ("CPUUtil-ScalingPolicy-" ++ py_str endpoint));
             ("ServiceNamespace", VStr "sagemaker");
             ("ResourceId", resource_id);
             ("ScalableDimension", VStr "sagemaker:variant:DesiredInstanceCount");
             ("PolicyType", VStr "TargetTrackingScaling");
             ("TargetTrackingScalingPolicyConfiguration",
              VDict
                [("TargetValue", VFloat 50);
                 ("CustomizedMetricSpecification",
                  VDict
                    [("MetricName", VStr "CPUUtilization");
                     ("Namespace", VStr "/aws/sagemaker/Endpoints");
                     ("Dimensions",
                      VList
                        [VDict [("Name", VStr "EndpointName"); ("Value", endpoint)];
                         VDict [("Name", VStr "VariantName"); ("Value", VStr "AllTraffic")]]);
                     ("Statistic", VStr "Average");
                     ("Unit", VStr "Percent")]);
                 ("ScaleInCooldown", VInt 300);
                 ("ScaleOutCooldown", VInt 100)])])
         (Ok r2)].
Proof.
  intros H. apply part_000_skeleton in H.
  destruct H as (n & model & predictor & endpoint & asg_client & r0 & rs & r1 & r2
                 & -> & Hn & Hname & Hrs & H).
  exists model, predictor, endpoint, asg_client, r1, r2.
  split; [|split; [exact Hname|]].
  - apply (filter_In skeleton_event). rewrite H. left. reflexivity.
  - cbv zeta in *.
    rewrite (filter_sub autoscaling_event skeleton_event), H.
    + generalize Part000.requests as k; intro k. filter_trace. reflexivity.
    + intros x Hx. unfold skeleton_event. rewrite Hx.
      rewrite orb_true_r. reflexivity.
Qed.

Lemma autoscaling_configuration_witness :
  exists asg_client resource_id r1 r2 policy,
    filter autoscaling_event
      (snd (run (Sample.healthy "eu-west-1") (Part000.part_000 "uuid" (VInt 4)) [])) =
      [SdkCall
         (mkCall asg_client "register_scalable_target" []
            [("ServiceNamespace", VStr "sagemaker");
             ("ResourceId", resource_id);
             ("ScalableDimension", VStr "sagemaker:variant:DesiredInstanceCount");
             ("MinCapacity", VInt 1);
             ("MaxCapacity", VInt 4)])
         (Ok r1);
       SdkCall (mkCall asg_client "put_scaling_policy" [] policy) (Ok r2)].
Proof.
  destruct (autoscaling_configuration (Sample.healthy "eu-west-1") "uuid" (VInt 4)
              (VObj "delete_endpoint" [])
              (snd (run (Sample.healthy "eu-west-1") (Part000.part_000 "uuid" (VInt 4)) [])))
    as (model & predictor & endpoint & asg_client & r1 & r2 & _ & _ & H).
  - vm_compute. reflexivity.
  - cbv zeta in H. rewrite H. do 5 eexists. reflexivity.
Defined.

(** ** Teardown *)

Lemma filter_deploy_endpoint evs :
  filter (is_call "deploy") evs = filter (is_call "deploy") (filter skeleton_event evs).
Proof.
  apply filter_sub. intros x Hx. unfold skeleton_event, lifecycle_event.
  rewrite Hx. reflexivity.
Qed.

Lemma filter_endpoint_skeleton evs :
  filter endpoint_event evs = filter endpoint_event (filter skeleton_event evs).
Proof.
  apply filter_sub. intros x Hx. unfold skeleton_event, lifecycle_event.
  unfold endpoint_event in Hx. apply orb_true_iff in Hx. destruct Hx as [Hx|Hx]; rewrite Hx.
  - reflexivity.
  - rewrite !orb_true_r. reflexivity.
Qed.

Lemma filter_lifecycle_skeleton evs :
  filter lifecycle_event evs = filter lifecycle_event (filter skeleton_event evs).
Proof.
  apply filter_sub. intros x Hx. unfold skeleton_event. rewrite Hx. reflexivity.
Qed.

Lemma filter_delete_model_skeleton evs :
  filter (is_call "delete_model") evs
  = filter (is_call "delete_model") (filter skeleton_event evs).
Proof.
  apply filter_sub. intros x Hx. unfold skeleton_event, lifecycle_event.
  rewrite Hx, !orb_true_r. reflexivity.
Qed.

Lemma filter_pool_skeleton evs :
  filter pool_event evs = filter pool_event (filter skeleton_event evs).
Proof.
  apply filter_sub. intros x Hx. unfold skeleton_event.
  rewrite Hx, !orb_true_r. reflexivity.
Qed.

(** C5: in a complete run of each notebook, every endpoint created by
    [deploy] is afterwards deleted by [delete_endpoint()] on the predictor
    that [deploy] returned: one endpoint in [part_000], four in
    [part_001], one in the distillation lab. *)
Theorem every_deployed_endpoint_is_deleted env v evs :
  (forall uuid cpu_count,
      run env (Part000.part_000 uuid cpu_count) [] = (Ok v, evs) ->
      torn_down (filter endpoint_event evs)
      /\ List.length (filter (is_call "deploy") evs) = 1%nat)
  /\ (run env Part001.part_001 [] = (Ok v, evs) ->
      torn_down (filter endpoint_event evs)
      /\ List.length (filter (is_call "deploy") evs) = 4%nat)
  /\ (run env Lab2.lab2_knowledge_distillation [] = (Ok v, evs) ->
      torn_down (filter endpoint_event evs)
      /\ List.length (filter (is_call "deploy") evs) = 1%nat).
Proof.
  split; [|split].
  - intros uuid cpu_count H. apply part_000_skeleton in H.
    destruct H as (n & model & predictor & endpoint & asg_client & r0 & rs & r1 & r2
                   & -> & Hn & Hname & Hrs & H).
    cbv zeta in H.
    rewrite filter_endpoint_skeleton, filter_deploy_endpoint, H.
    generalize Part000.requests as k; intro k. filter_trace.
    split; [|reflexivity]. repeat constructor.
  - intros H. apply part_001_skeleton in H.
    destruct H as (m1 & p1 & [[x1 y1] z1] & m2 & p2 & [[x2 y2] z2] & m3 & c3 & p3
                   & [[x3 y3] z3] & m4 & c4 & s4 & p4 & [[x4 y4] z4] & H).
    rewrite filter_endpoint_skeleton, filter_deploy_endpoint, H.
    split; [|reflexivity]. simpl. repeat constructor.
  - intros H. apply lab2_skeleton in H.
    destruct H as (estimator & predictor & d & rs & r & Hd & Hrs & H).
    rewrite filter_endpoint_skeleton, filter_deploy_endpoint, H.
    filter_trace. split; [|reflexivity]. repeat constructor.
Qed.

Lemma every_deployed_endpoint_is_deleted_witness :
  torn_down
    (filter endpoint_event (snd (run (Sample.healthy "eu-west-1") Part001.part_001 [])))
  /\ List.length
       (filter (is_call "deploy")
               (snd (run (Sample.healthy "eu-west-1") Part001.part_001 []))) = 4%nat.
Proof.
  apply (proj1 (proj2 (every_deployed_endpoint_is_deleted
                         (Sample.healthy "eu-west-1") (VObj "delete_endpoint" []) _))).
  vm_compute. reflexivity.
Defined.

(** C6: the cleanup cell of the distillation lab only looks up
    [predictor.delete_model]; it makes one call, [delete_endpoint()], and
    no run of the lab ever calls [delete_model].  The cleanups of
    [part_001], the only other ones that name [delete_model], call it:
    each of the four deployments of a complete run is followed by
    [delete_model()] and [delete_endpoint()] on its predictor. *)
Theorem distillation_cleanup_keeps_the_model :
  always (fun ev => is_call "delete_model" ev = false) Lab2.lab2_knowledge_distillation
  /\ (forall env h predictor,
        snd (run env (Lab2.cell_cleanup predictor) h)
        = [SdkCall (mkCall predictor "delete_endpoint" [] [])
                   (env h (mkCall predictor "delete_endpoint" [] []))])
  /\ (forall env v evs,
        run env Lab2.lab2_knowledge_distillation [] = (Ok v, evs) ->
        exists estimator predictor r,
          filter lifecycle_event evs =
            [SdkCall (mkCall estimator "deploy" [VInt 1; VStr "ml.c5.xlarge"] []) (Ok predictor);
             SdkCall (mkCall predictor "delete_endpoint" [] []) (Ok r)])
  /\ (forall model_id uuid cpu_count,
        always (fun ev => is_call "delete_model" ev = false)
               (Part000.notebook model_id uuid cpu_count))
  /\ (forall env v evs,
        run env Part001.part_001 [] = (Ok v, evs) ->
        torn_down_with_model (filter lifecycle_event evs)
        /\ List.length (filter (is_call "delete_model") evs) = 4%nat).
Proof.
  split; [|split; [|split; [|split]]].
  - always_auto; reflexivity.
  - intros env h predictor. simpl. destruct (env h _); reflexivity.
  - intros env v evs H. apply lab2_skeleton in H.
    destruct H as (estimator & predictor & d & rs & r & Hd & Hrs & H).
    rewrite filter_lifecycle_skeleton, H. filter_trace. eauto.
  - intros model_id uuid cpu_count. always_auto; reflexivity.
  - intros env v evs H. apply part_001_skeleton in H.
    destruct H as (m1 & p1 & [[x1 y1] z1] & m2 & p2 & [[x2 y2] z2] & m3 & c3 & p3
                   & [[x3 y3] z3] & m4 & c4 & s4 & p4 & [[x4 y4] z4] & H).
    rewrite filter_lifecycle_skeleton, filter_delete_model_skeleton, H.
    split; [|reflexivity]. simpl. repeat constructor.
Qed.

Lemma distillation_cleanup_keeps_the_model_witness :
  exists estimator predictor r,
    filter lifecycle_event
      (snd (run (Sample.healthy "eu-west-1") Lab2.lab2_knowledge_distillation [])) =
      [SdkCall (mkCall estimator "deploy" [VInt 1; VStr "ml.c5.xlarge"] []) (Ok predictor);
       SdkCall (mkCall predictor "delete_endpoint" [] []) (Ok r)].
Proof.
  apply (proj1 (proj2 (proj2 distillation_cleanup_keeps_the_model))
           (Sample.healthy "eu-west-1") (VObj "plot_metrics" [])).
  vm_compute. reflexivity.
Defined.

(** ** Load generation *)

(** C8: the load-generation cell creates the thread pool with
    [max_workers] five times the CPU count, hands it exactly 200 tasks,
    each [predictor.predict] on the one payload [data], and nothing else,
    and then shuts it down; in a complete run of [part_000] these are all
    the thread-pool events, and the predictor is the deployed one. *)
Theorem load_test_submits_200_predictions env :
  (forall h n predictor data,
      (0 < n)%Z ->
      run env (Part000.cell_load_test (VInt n) predictor data) h =
        (Ok VNone,
         Out (Display (VStr ("workers used for load test: " ++ string_of_Z (n * 5))))
         :: Out (PoolCreate (n * 5))
         :: repeat (Out (PoolSubmit (VMethod predictor "predict") [data])) 200
         ++ [Out PoolShutdown])%list)
  /\ (forall uuid cpu_count v evs,
        run env (Part000.part_000 uuid cpu_count) [] = (Ok v, evs) ->
        exists n model predictor,
          cpu_count = VInt n /\
          In (SdkCall (Part000.deploy model) (Ok predictor)) evs /\
          filter pool_event evs =
            (Out (PoolCreate (n * 5))
             :: repeat (Out (PoolSubmit (VMethod predictor "predict") [Part000.data])) 200
             ++ [Out PoolShutdown])%list).
Proof.
  split.
  - intros h n predictor data Hn.
    unfold Part000.cell_load_test, Part000.ThreadPoolExecutor. cbn [py_mul lift bind].
    assert (E : (n * 5 <=? 0)%Z = false) by (apply Z.leb_gt; lia).
    rewrite E. unfold print. cbn [bind run py_str].
    rewrite run_bind, run_for_range_submit. cbn [run].
    reflexivity.
  - intros uuid cpu_count v evs H. apply part_000_skeleton in H.
    destruct H as (n & model & predictor & endpoint & asg_client & r0 & rs & r1 & r2
                   & -> & Hn & Hname & Hrs & H).
    cbv zeta in H. exists n, model, predictor.
    split; [reflexivity|]. split.
    + apply (filter_In skeleton_event). rewrite H. left. reflexivity.
    + rewrite filter_pool_skeleton, H.
      change 200%nat with Part000.requests.
      generalize Part000.requests as k; intro k. filter_trace. reflexivity.
Qed.

Lemma load_test_submits_200_predictions_witness :
  exists predictor,
    filter pool_event
      (snd (run (Sample.healthy "eu-west-1") (Part000.part_000 "uuid" (VInt 4)) [])) =
      (Out (PoolCreate 20)
       :: repeat (Out (PoolSubmit (VMethod predictor "predict") [Part000.data])) 200
       ++ [Out PoolShutdown])%list.
Proof.
  destruct (proj2 (load_test_submits_200_predictions (Sample.healthy "eu-west-1"))
              "uuid" (VInt 4) (VObj "delete_endpoint" [])
              (snd (run (Sample.healthy "eu-west-1") (Part000.part_000 "uuid" (VInt 4)) [])))
    as (n & model & predictor & Hn & _ & H).
  - vm_compute. reflexivity.
  - injection Hn as <-. exists predictor. exact H.
Defined.

(** ** Dashboard URLs *)

(** C7 does not hold of the code.  With the session in [eu-west-1], the
    distillation lab prints that region and then a dashboard URL whose
    host and [region] fields are the fixed text [us-east-1]; and the first
    dashboard URL of [part_000], while it carries the session's region and
    ends with the deployed endpoint's name, plots the metric of the fixed
    endpoint name of an earlier run. *)
Theorem dashboard_urls_in_eu_west_1 :
  displayed (snd (run (Sample.healthy "eu-west-1") Lab2.lab2_knowledge_distillation []))
  = [VStr "sagemaker role arn: arn:aws:iam::000000000000:role/sagemaker_execution_role";
     VStr "sagemaker bucket: sagemaker-bucket";
     VStr "sagemaker session region: eu-west-1";
     VStr "https://us-east-1.console.aws.amazon.com/cloudwatch/home?region=us-east-1#metricsV2:graph=~(metrics~(~(~'AWS*2fSageMaker~'ModelLatency~'EndpointName~'endpoint-13~'VariantName~'AllTraffic))~view~'timeSeries~stacked~false~region~'us-east-1~start~'-PT10M~end~'P0D~stat~'p99~period~300);query=~'*7bAWS*2fSageMaker*2cEndpointName*2cVariantName*7d*20endpoint-13"]
  /\ nth_error
       (displayed (snd (run (Sample.healthy "eu-west-1")
                            (Part000.part_000 "uuid" (VInt 4)) [])))
       0
     = Some (VStr "https://console.aws.amazon.com/cloudwatch/home?region=eu-west-1#metricsV2:graph=~(metrics~(~(~'AWS*2fSageMaker~'ModelLatency~'EndpointName~'finbert-tone-73d26f97-9376-4b3f-9334-a2-2021-10-29-12-18-52-365~'VariantName~'AllTraffic))~view~'timeSeries~stacked~false~start~'-PT15M~end~'P0D~region~'eu-west-1~stat~'SampleCount~period~30);query=~'*7bAWS*2fSageMaker*2cEndpointName*2cVariantName*7d*20endpoint-3")
  /\ contains "eu-west-1" (Lab2.latency_url "endpoint-13" "endpoint-13") = false.
Proof.
  repeat split; vm_compute; reflexivity.
Qed.

(** ** Endpoint name *)

(** C9, as stated, fails: for a model id with two slashes the name stops
    at the second one. *)
Lemma endpoint_name_stops_at_second_slash :
  Part000.endpoint_name (Part000.hub "a/b/c") "u" = Ok (VStr "b-u")
  /\ name_as_claimed "a/b/c" "u" = Ok (VStr "b/c-u")
  /\ Part000.endpoint_name (Part000.hub "a/b/c") "u" <> name_as_claimed "a/b/c" "u".
Proof.
  split; [reflexivity|]. split; [reflexivity|]. discriminate.
Qed.

(** C9, amended: the name is the part of [HF_MODEL_ID] between its first
    and its second ['/'] (all that follows the first ['/'] when there is
    no second), followed by ['-'] and the text of the UUID4.  For every
    model id containing a ['/'] the construction succeeds, and different
    UUIDs give different names; for a model id without ['/'] it raises
    [IndexError], and the run of the notebook ends in an exception without
    any call of [HuggingFaceModel]. *)
Theorem endpoint_name_construction (model_id uuid : string) :
  (forall rest,
      after_first "/" model_id = Some rest ->
      Part000.endpoint_name (Part000.hub model_id) uuid
        = Ok (VStr (before_first "/" rest ++ "-" ++ uuid))
      /\ (after_first "/" rest = None ->
          Part000.endpoint_name (Part000.hub model_id) uuid
            = Ok (VStr (rest ++ "-" ++ uuid)))
      /\ (forall uuid', uuid' <> uuid ->
          Part000.endpoint_name (Part000.hub model_id) uuid'
            <> Part000.endpoint_name (Part000.hub model_id) uuid))
  /\ (after_first "/" model_id = None ->
      Part000.endpoint_name (Part000.hub model_id) uuid = Raise IndexError
      /\ forall env cpu_count,
           (exists e, fst (run env (Part000.notebook model_id uuid cpu_count) []) = Raise e)
           /\ Forall (fun ev => is_call "HuggingFaceModel" ev = false)
                     (snd (run env (Part000.notebook model_id uuid cpu_count) []))).
Proof.
  split.
  - intros rest Hrest. rewrite !endpoint_name_segment, Hrest. split; [reflexivity|]. split.
    + intros Hone. rewrite before_first_all by exact Hone. reflexivity.
    + intros uuid' Hneq. rewrite endpoint_name_segment, Hrest.
      intros [= H]. apply append_inj_l in H. simpl in H. injection H as H. auto.
  - intros Hnone. pose proof (endpoint_name_segment model_id uuid) as E.
    rewrite Hnone in E. split; [exact E|].
    intros env cpu. unfold Part000.notebook, Part000.cell_model.
    cbv zeta. rewrite E. simpl.
    destruct (env _ _) as [role|e]; simpl.
    + split; [eauto|]. repeat constructor.
    + split; [eauto|]. repeat constructor.
Qed.

Lemma endpoint_name_construction_witness :
  Part000.endpoint_name (Part000.hub Part000.HF_MODEL_ID)
                        "0b6a2c1e-5c1f-4d0e-9b7a-3f2e1d0c9b8a"
  = Ok (VStr "finbert-tone-0b6a2c1e-5c1f-4d0e-9b7a-3f2e1d0c9b8a")
  /\ Part000.endpoint_name (Part000.hub "gpt2") "0b6a2c1e-5c1f-4d0e-9b7a-3f2e1d0c9b8a"
     = Raise IndexError.
Proof.
  split.
  - exact (proj1 (proj1 (endpoint_name_construction Part000.HF_MODEL_ID
                           "0b6a2c1e-5c1f-4d0e-9b7a-3f2e1d0c9b8a")
                        "finbert-tone" eq_refl)).
  - exact (proj1 (proj2 (endpoint_name_construction "gpt2"
                           "0b6a2c1e-5c1f-4d0e-9b7a-3f2e1d0c9b8a")
                        eq_refl)).
Defined.

(** ** The shape assertion of [compute_loss] *)

(** C10, as stated, fails: on a batch without labels the student's and
    the teacher's logits have the same shape, the assertion passes, and
    [compute_loss] raises [TypeError] instead of returning a loss. *)
Lemma unlabelled_batch_gets_no_loss :
  Distillation.size Distillation.Sample.meta
    (Distillation.logits (Distillation.Sample.unlabelled_student tt))
  = Distillation.size Distillation.Sample.meta
      (Distillation.logits (Distillation.Sample.teacher tt))
  /\ Distillation.compute_loss Distillation.Sample.meta unit
       Distillation.Sample.teacher Distillation.Sample.args
       Distillation.Sample.unlabelled_student tt false
     = Raise TypeError.
Proof. split; reflexivity. Qed.

(** C10, amended: [compute_loss] checks that the student's and the
    teacher's logits have the same shape before it computes the
    distillation term.  With different shapes it raises [AssertionError],
    whether or not the student reports a loss.  With equal shapes the
    assertion passes; a loss is then returned when the student's output
    carries one, and when [outputs_student.loss] is [None] the weighted sum
    raises [TypeError]. *)
Theorem compute_loss_asserts_equal_sizes (torch : Distillation.Torch) (Inputs : Type)
    (teacher model : Inputs -> Distillation.ModelOutput torch)
    (args : Distillation.DistillationTrainingArguments torch)
    (inputs : Inputs) (return_outputs : bool) :
  (Distillation.size torch (Distillation.logits (model inputs))
     <> Distillation.size torch (Distillation.logits (teacher inputs)) ->
   Distillation.compute_loss torch Inputs teacher args model inputs return_outputs
     = Raise AssertionError)
  /\ (Distillation.size torch (Distillation.logits (model inputs))
        = Distillation.size torch (Distillation.logits (teacher inputs)) ->
      (forall student_loss,
          Distillation.loss (model inputs) = Some student_loss ->
          exists l,
            Distillation.compute_loss torch Inputs teacher args model inputs return_outputs
              = Ok (if return_outputs
                    then Distillation.LossAndOutputs torch l (model inputs)
                    else Distillation.Loss torch l))
      /\ (Distillation.loss (model inputs) = None ->
          Distillation.compute_loss torch Inputs teacher args model inputs return_outputs
            = Raise TypeError)).
Proof.
  unfold Distillation.compute_loss. split; intros Hsize.
  - destruct (Distillation.size_eqb _ _) eqn:E; [|reflexivity].
    apply size_eqb_eq in E. contradiction.
  - apply size_eqb_eq in Hsize. rewrite Hsize. cbn [negb]. split.
    + intros student_loss ->. eexists. reflexivity.
    + intros ->. reflexivity.
Qed.

Lemma compute_loss_asserts_equal_sizes_witness :
  Distillation.compute_loss Distillation.Sample.meta unit
    Distillation.Sample.teacher Distillation.Sample.args
    Distillation.Sample.wide_student tt false
  = Raise AssertionError
  /\ (exists l,
        Distillation.compute_loss Distillation.Sample.meta unit
          Distillation.Sample.teacher Distillation.Sample.args
          Distillation.Sample.student tt false
        = Ok (Distillation.Loss Distillation.Sample.meta l))
  /\ Distillation.compute_loss Distillation.Sample.meta unit
       Distillation.Sample.teacher Distillation.Sample.args
       Distillation.Sample.unlabelled_student tt true
     = Raise TypeError.
Proof.
  split; [|split].
  - apply (proj1 (compute_loss_asserts_equal_sizes Distillation.Sample.meta unit
                    Distillation.Sample.teacher Distillation.Sample.wide_student
                    Distillation.Sample.args tt false)).
    simpl. intros [= H].
  - apply (proj1 (proj2 (compute_loss_asserts_equal_sizes Distillation.Sample.meta unit
                           Distillation.Sample.teacher Distillation.Sample.student
                           Distillation.Sample.args tt false) eq_refl) []).
    reflexivity.
  - apply (proj2 (proj2 (compute_loss_asserts_equal_sizes Distillation.Sample.meta unit
                           Distillation.Sample.teacher Distillation.Sample.unlabelled_student
                           Distillation.Sample.args tt true) eq_refl)).
    reflexivity.
Defined.

(** * Further properties *)

(** ** More on the notebooks *)





(** X6: the load-test cell on a machine whose CPU count is unknown.  When
    [os.cpu_count()] is [None] the cell raises [TypeError] before it
    prints or creates anything; when the count is not positive it prints
    the number of workers and [ThreadPoolExecutor] raises [ValueError];
    in both cases no pool is created and nothing is submitted. *)
Theorem load_test_without_workers env h predictor data :
  run env (Part000.cell_load_test VNone predictor data) h = (Raise TypeError, [])
  /\ forall n,
       (n <= 0)%Z ->
       run env (Part000.cell_load_test (VInt n) predictor data) h =
         (Raise ValueError,
          [Out (Display (VStr ("workers used for load test: " ++ string_of_Z (n * 5))))]).
Proof.
  split; [reflexivity|].
  intros n Hn. unfold Part000.cell_load_test, Part000.ThreadPoolExecutor.
  cbn [py_mul lift bind].
  assert (E : (n * 5 <=? 0)%Z = true) by (apply Z.leb_le; lia).
  rewrite E. reflexivity.
Qed.

Lemma load_test_without_workers_witness :
  run (Sample.healthy "eu-west-1")
      (Part000.cell_load_test (VInt 0) (Sample.predictor "eu-west-1" 3) Part000.data) [] =
    (Raise ValueError, [Out (Display (VStr "workers used for load test: 0"))]).
Proof.
  apply (proj2 (load_test_without_workers (Sample.healthy "eu-west-1") []
                  (Sample.predictor "eu-west-1" 3) Part000.data) 0%Z).
  lia.
Defined.

(** X7: how the role is resolved.  When [get_execution_role()] answers,
    its answer is the role and IAM is not consulted; when it raises
    anything but [ValueError], that exception ends the cell at once; when
    it raises [ValueError], the cell asks IAM for the role
    [sagemaker_execution_role] and the role is [response['Role']['Arn']],
    with the [KeyError] of a response that lacks ['Role']. *)
Theorem role_resolution env h :
  (forall role,
      env h get_execution_role = Ok role ->
      run env Config.resolve_role h = (Ok role, [SdkCall get_execution_role (Ok role)]))
  /\ (forall e,
        env h get_execution_role = Raise e ->
        e <> ValueError ->
        run env Config.resolve_role h = (Raise e, [SdkCall get_execution_role (Raise e)]))
  /\ (forall iam response,
        let failed := SdkCall get_execution_role (Raise ValueError) in
        let client := mkCall VNone "boto3.client" [VStr "iam"] [] in
        let get_role := mkCall iam "get_role" []
                          [("RoleName", VStr "sagemaker_execution_role")] in
        env h get_execution_role = Raise ValueError ->
        env (h ++ [failed])%list client = Ok iam ->
        env (h ++ [failed; SdkCall client (Ok iam)])%list get_role = Ok response ->
        run env Config.resolve_role h =
          ((let? entry := py_getitem response (VStr "Role") in
            py_getitem entry (VStr "Arn")),
           [failed; SdkCall client (Ok iam); SdkCall get_role (Ok response)])
        /\ (forall kv, response = VDict kv -> lookup "Role" kv = None ->
            fst (run env Config.resolve_role h) = Raise KeyError)).
Proof.
  unfold Config.resolve_role. simpl.
  change (mkCall VNone "sagemaker.get_execution_role" [] []) with get_execution_role.
  split; [|split].
  - intros role E. rewrite E. reflexivity.
  - intros e E Hne. rewrite E. destruct e; simpl; try reflexivity. contradiction.
  - intros iam response E1 E2 E3. rewrite E1. simpl.
    rewrite E2. simpl. rewrite <- app_assoc. simpl.
    rewrite E3. simpl.
    destruct (rbind (py_getitem response (VStr "Role")) _) as [v|e] eqn:Er.
    + simpl. split; [reflexivity|].
      intros kv -> Hk. simpl in Er. rewrite Hk in Er. discriminate Er.
    + simpl. split; [reflexivity|].
      intros kv -> Hk. simpl in Er. rewrite Hk in Er. simpl in Er. congruence.
Qed.

Lemma role_resolution_witness :
  run (Sample.no_execution_role "eu-west-1") Config.resolve_role [] =
    (Ok Sample.role_arn,
     [SdkCall get_execution_role (Raise ValueError);
      SdkCall (mkCall VNone "boto3.client" [VStr "iam"] []) (Ok (VObj "boto3.client" []));
      SdkCall (mkCall (VObj "boto3.client" []) "get_role" []
                 [("RoleName", VStr "sagemaker_execution_role")])
              (Ok (VDict [("Role", VDict [("Arn", Sample.role_arn)])]))]).
Proof.
  apply (proj1 (proj2 (proj2 (role_resolution (Sample.no_execution_role "eu-west-1") []))
                 (VObj "boto3.client" [])
                 (VDict [("Role", VDict [("Arn", Sample.role_arn)])])
                 eq_refl eq_refl eq_refl)).
Defined.

Lemma predict_payloads_app evs evs' :
  predict_payloads (evs ++ evs')%list = (predict_payloads evs ++ predict_payloads evs')%list.
Proof.
  induction evs as [|ev evs IH]; simpl; [reflexivity|].
  destruct (prediction ev); simpl; rewrite IH; reflexivity.
Qed.

Lemma predict_payloads_calls c d rs :
  prediction (SdkCall c (Ok VNone)) = Some c -> payload c = Some d ->
  predict_payloads (map (fun x => SdkCall c (Ok x)) rs) = repeat (Some d) (List.length rs).
Proof.
  intros Hc Hd. induction rs as [|r rs IH]; simpl; [reflexivity|].
  simpl in Hc. destruct (String.eqb (fname c) "predict"); [|discriminate].
  rewrite Hd, IH. reflexivity.
Qed.

Lemma predict_payloads_submits p d n :
  predict_payloads (repeat (Out (PoolSubmit (VMethod p "predict") [d])) n)
  = repeat (Some d) n.
Proof.
  induction n as [|n IH]; simpl; [reflexivity|]. rewrite IH. reflexivity.
Qed.

Lemma filter_traffic_skeleton evs :
  filter traffic_event evs = filter traffic_event (filter skeleton_event evs).
Proof.
  apply filter_sub. intros x Hx. unfold skeleton_event.
  unfold traffic_event in Hx. apply orb_true_iff in Hx. destruct Hx as [Hx|Hx]; rewrite Hx.
  - rewrite !orb_true_r. reflexivity.
  - rewrite !orb_true_r. reflexivity.
Qed.

(** X8: the order of traffic and autoscaling in a complete run of
    [part_000].  The deployed endpoint first answers 501 predictions, one
    after the other; only then is the scalable target registered and the
    scaling policy put; the 200 pooled predictions are all submitted after
    the policy is in place.  All 701 predictions carry the same payload
    [data]. *)
Theorem load_follows_the_scaling_policy env uuid cpu_count v evs :
  run env (Part000.part_000 uuid cpu_count) [] = (Ok v, evs) ->
  exists predictor answers asg_client resource_id endpoint r1 r2,
    List.length answers = 501%nat /\
    filter traffic_event evs =
      (map (fun x => SdkCall (Part000.predict predictor Part000.data) (Ok x)) answers
       ++ [SdkCall (Part000.register_scalable_target asg_client resource_id) (Ok r1);
           SdkCall (Part000.put_scaling_policy asg_client resource_id endpoint endpoint)
                   (Ok r2)]
       ++ repeat (Out (PoolSubmit (VMethod predictor "predict") [Part000.data])) 200)%list
    /\ predict_payloads evs = repeat (Some Part000.data) 701.
Proof.
  intros H. apply part_000_skeleton in H.
  destruct H as (n & model & predictor & endpoint & asg_client & r0 & rs & r1 & r2
                 & -> & Hn & Hname & Hrs & H).
  cbv zeta in H.
  exists predictor, (r0 :: rs), asg_client,
         ("endpoint/" ++ py_str endpoint ++ "/variant/AllTraffic"), endpoint, r1, r2.
  split; [simpl; lia|]. split.
  - rewrite filter_traffic_skeleton, H.
    change 200%nat with Part000.requests.
    generalize Part000.requests as k; intro k. filter_trace.
    rewrite <- ?app_assoc, ?app_nil_r. simpl. rewrite ?app_nil_r.
    reflexivity.
  - rewrite <- (predict_payloads_filter skeleton_event) by exact skeleton_of_prediction.
    rewrite H. cbn [predict_payloads prediction payload Part000.predict fname args
                    String.eqb Ascii.eqb Bool.eqb].
    rewrite !predict_payloads_app.
    rewrite (predict_payloads_calls _ Part000.data) by reflexivity.
    rewrite predict_payloads_submits, Hrs. reflexivity.
Qed.

Lemma load_follows_the_scaling_policy_witness :
  predict_payloads
    (snd (run (Sample.healthy "eu-west-1") (Part000.part_000 "uuid" (VInt 4)) []))
  = repeat (Some Part000.data) 701.
Proof.
  destruct (load_follows_the_scaling_policy (Sample.healthy "eu-west-1") "uuid" (VInt 4)
              (VObj "delete_endpoint" [])
              (snd (run (Sample.healthy "eu-west-1") (Part000.part_000 "uuid" (VInt 4)) [])))
    as (predictor & answers & asg_client & resource_id & endpoint & r1 & r2 & _ & _ & H).
  - vm_compute. reflexivity.
  - exact H.
Defined.

Lemma before_first_clean sep s : after_first sep (before_first sep s) = None.
Proof.
  induction s as [|c s IH]; simpl; [reflexivity|].
  destruct (Ascii.eqb c sep) eqn:E; simpl; [reflexivity|].
  rewrite E. exact IH.
Qed.

Lemma after_first_append sep a r :
  after_first sep a = None ->
  after_first sep (a ++ String sep r) = Some r.
Proof.
  induction a as [|c a IH]; simpl.
  - intros _. rewrite Ascii.eqb_refl. reflexivity.
  - destruct (Ascii.eqb c sep); [discriminate|]. exact IH.
Qed.

(** X9: the model part of the name.  Whenever the name is built, it is
    [segment-uuid] where [segment] holds no ['/']; and when nothing stands
    between the first ['/'] of the model id and its end or its next ['/']
    (as in ["org/"] or ["org//model"]), the construction still succeeds,
    with an empty segment: the name is ['-'] followed by the UUID4. *)
Theorem endpoint_name_segment_is_clean (model_id uuid : string) :
  (forall name,
      Part000.endpoint_name (Part000.hub model_id) uuid = Ok name ->
      exists segment,
        name = VStr (segment ++ "-" ++ uuid) /\ after_first "/" segment = None)
  /\ (forall org rest,
        after_first "/" org = None ->
        model_id = org ++ "/" \/ model_id = org ++ "//" ++ rest ->
        Part000.endpoint_name (Part000.hub model_id) uuid = Ok (VStr ("-" ++ uuid))).
Proof.
  split.
  - intros name. rewrite endpoint_name_segment.
    destruct (after_first "/" model_id) as [rest|]; [|discriminate].
    intros [= <-]. exists (before_first "/" rest).
    split; [reflexivity|apply before_first_clean].
  - intros org rest Horg Hid. rewrite endpoint_name_segment.
    destruct Hid as [->| ->].
    + rewrite (after_first_append "/" org "" Horg). reflexivity.
    + change (org ++ "//" ++ rest) with (org ++ String "/" (String "/" rest)).
      rewrite (after_first_append "/" org _ Horg). reflexivity.
Qed.

Lemma endpoint_name_segment_is_clean_witness :
  Part000.endpoint_name (Part000.hub "org/") "u" = Ok (VStr "-u")
  /\ exists segment,
       VStr "finbert-tone-u" = VStr (segment ++ "-" ++ "u")
       /\ after_first "/" segment = None.
Proof.
  split.
  - apply (proj2 (endpoint_name_segment_is_clean "org/" "u") "org" "" eq_refl).
    left. reflexivity.
  - apply (proj1 (endpoint_name_segment_is_clean Part000.HF_MODEL_ID "u")).
    reflexivity.
Defined.

(** ** Data flow of the inference options *)

Lemma run_resolve_role_resolved env h role evs :
  run env Config.resolve_role h = (Ok role, evs) -> role_resolved evs role.
Proof.
  unfold Config.resolve_role, role_resolved. simpl.
  change (mkCall VNone "sagemaker.get_execution_role" [] []) with get_execution_role.
  destruct (env h get_execution_role) as [v|e]; simpl.
  - intros [= <- <-]. left. reflexivity.
  - destruct e; simpl; try discriminate.
    destruct (env _ _) as [iam|e]; simpl; [|discriminate].
    destruct (env _ _) as [response|e]; simpl; [|discriminate].
    destruct (py_getitem response (VStr "Role")) as [entry|e] eqn:E1; simpl; [|discriminate].
    destruct (py_getitem entry (VStr "Arn")) as [arn|e] eqn:E2; simpl; [|discriminate].
    intros [= <- <-]. right. exists iam, response, entry. auto.
Qed.

(** The data flow of a complete run of [part_001]. *)
Lemma part_001_dataflow env v evs :
  run env Part001.part_001 [] = (Ok v, evs) ->
  exists f before e_role after,
    filter dataflow_event evs = flow_events f
    /\ (bucket f = VNone
        \/ In (SdkCall (mkCall (sess0 f) "default_bucket" [] []) (Ok (bucket f))) evs)
    /\ evs = (before ++ e_role ++ after)%list
    /\ role_resolved e_role (role f).
Proof.
  intros H. unfold Part001.part_001 in H.
  apply run_bind_Ok in H. destruct H as (v0 & e0 & e1 & H0 & H1 & ->).
  apply run_bind_Ok in H1. destruct H1 as (bkt & e2 & e3 & Hb & H2 & ->).
  apply run_bind_Ok in H2. destruct H2 as (role & e4 & e5 & Hr & H3 & ->).
  apply run_resolve_role_resolved in Hr.
  inv_run H3. inv_run H0.
  assert (Fr : filter dataflow_event e4 = []).
  { destruct Hr as [->|(iam & response & entry & -> & _)]; reflexivity. }
  inv_run Hb.
  - match goal with
    | |- exists f before e_role after, filter dataflow_event ?E = _ /\ _ =>
        eassert (HL : filter dataflow_event E = _);
        [filter_trace; rewrite ?Fr; filter_trace; reflexivity|]
    end.
    match type of HL with
    | _ = [SdkCall _ (Ok ?a1); SdkCall _ (Ok ?a2); SdkCall _ (Ok ?a3); SdkCall _ (Ok ?a4);
           SdkCall _ (Ok ?a5); SdkCall _ (Ok ?a6); SdkCall _ (Ok ?a7); SdkCall _ (Ok ?a8);
           SdkCall _ (Ok ?a9); SdkCall _ (Ok ?a10); SdkCall _ (Ok ?a11);
           SdkCall _ (Ok ?a12); SdkCall _ (Ok ?a13); SdkCall _ (Ok ?a14);
           SdkCall _ (Ok ?a15); SdkCall _ (Ok ?a16); SdkCall _ (Ok ?a17);
           SdkCall _ (Ok ?a18); SdkCall _ (Ok ?a19); SdkCall _ (Ok ?a20)] =>
        exists (mkFlow a1 bkt a2 role a3 a4 a5 a6 a7 a8 a9 a10 a11 a12 a13 a14 a15 a16
                       a17 a18 a19 a20)
    end.
    eexists. exists e4. eexists.
    split; [rewrite HL; reflexivity|].
    split; [right; cbn [app In]; do 2 right; left; reflexivity|].
    split; [|exact Hr].
    etransitivity; [apply app_assoc|]. reflexivity.
  - match goal with
    | |- exists f before e_role after, filter dataflow_event ?E = _ /\ _ =>
        eassert (HL : filter dataflow_event E = _);
        [filter_trace; rewrite ?Fr; filter_trace; reflexivity|]
    end.
    match type of HL with
    | _ = [SdkCall _ (Ok ?a1); SdkCall _ (Ok ?a2); SdkCall _ (Ok ?a3); SdkCall _ (Ok ?a4);
           SdkCall _ (Ok ?a5); SdkCall _ (Ok ?a6); SdkCall _ (Ok ?a7); SdkCall _ (Ok ?a8);
           SdkCall _ (Ok ?a9); SdkCall _ (Ok ?a10); SdkCall _ (Ok ?a11);
           SdkCall _ (Ok ?a12); SdkCall _ (Ok ?a13); SdkCall _ (Ok ?a14);
           SdkCall _ (Ok ?a15); SdkCall _ (Ok ?a16); SdkCall _ (Ok ?a17);
           SdkCall _ (Ok ?a18); SdkCall _ (Ok ?a19); SdkCall _ (Ok ?a20)] =>
        exists (mkFlow a1 VNone a2 role a3 a4 a5 a6 a7 a8 a9 a10 a11 a12 a13 a14 a15 a16
                       a17 a18 a19 a20)
    end.
    eexists. exists e4. eexists.
    split; [rewrite HL; reflexivity|].
    split; [left; reflexivity|].
    split; [|exact Hr].
    etransitivity; [apply app_assoc|]. reflexivity.
Qed.

Lemma filter_dataflow (P : event -> bool) env v evs :
  (forall ev, P ev = true -> dataflow_event ev = true) ->
  run env Part001.part_001 [] = (Ok v, evs) ->
  exists f, filter P evs = filter P (flow_events f)
            /\ forall ev, In ev (flow_events f) -> In ev evs.
Proof.
  intros HP H. destruct (part_001_dataflow _ _ _ H) as (f & _ & _ & _ & Hf & _).
  exists f. split.
  - rewrite (filter_sub P dataflow_event) by exact HP. rewrite Hf. reflexivity.
  - intros ev Hin. rewrite <- Hf in Hin. apply filter_In in Hin. tauto.
Qed.

Lemma is_call_dataflow name ev :
  In name ["sagemaker.Session"; "s3_path_join"; "S3Uploader.upload"; "HuggingFaceModel";
           "transformer"; "transform"; "AsyncInferenceConfig"; "ServerlessInferenceConfig";
           "DataSerializer"; "deploy"] ->
  is_call name ev = true -> dataflow_event ev = true.
Proof.
  unfold dataflow_event. intros Hin H.
  repeat (destruct Hin as [<-|Hin]; [rewrite H, ?orb_true_r; reflexivity|]).
  destruct Hin.
Qed.

(** X10: in every complete run of [part_001] there is exactly one batch
    job.  The tweet file is uploaded to the input path, the transformer is
    created from the sentiment model with the output path, and the job
    transforms the URI that the upload returned, as JSON lines.  Both paths
    are joined from the same bucket value. *)
Theorem batch_job_transforms_the_uploaded_file env v evs :
  run env Part001.part_001 [] = (Ok v, evs) ->
  exists bucket role input output uri model job result,
    filter batch_event evs =
      [SdkCall (mkCall VNone "S3Uploader.upload" [VStr "./tweet_data.jsonl"; input] [])
               (Ok uri);
       SdkCall (mkCall model "transformer" []
                  [("instance_count", VInt 1);
                   ("instance_type", VStr "ml.m5.xlarge");
                   ("output_path", output);
                   ("strategy", VStr "SingleRecord")])
               (Ok job);
       SdkCall (mkCall job "transform" []
                  [("data", uri);
                   ("content_type", VStr "application/json");
                   ("split_type", VStr "Line")])
               (Ok result)]
    /\ In (SdkCall (path_join_call bucket "london/batch_transform/input") (Ok input)) evs
    /\ In (SdkCall (path_join_call bucket "london/batch_transform/output") (Ok output)) evs
    /\ In (SdkCall (model_call ("env", Part001.hub "cardiffnlp/twitter-roberta-base-sentiment"
                                                   "text-classification") role)
                   (Ok model)) evs.
Proof.
  intros H.
  destruct (filter_dataflow batch_event env v evs) as (f & Hf & Hin); [|exact H|].
  { intros ev. unfold batch_event. rewrite !orb_true_iff.
    intros [[E|E]|E]; revert E; apply is_call_dataflow; simpl; tauto. }
  exists (bucket f), (role f), (input_s3_path f), (output_s3_path f), (s3_file_uri f),
    (model_batch f), (batch_job f), (transformed f).
  split; [rewrite Hf; reflexivity|].
  repeat split; apply Hin; simpl; tauto.
Qed.

Lemma batch_job_transforms_the_uploaded_file_witness :
  exists bucket role input output uri model job result,
    filter batch_event (snd (run (Sample.healthy "eu-west-1") Part001.part_001 [])) =
      [SdkCall (mkCall VNone "S3Uploader.upload" [VStr "./tweet_data.jsonl"; input] [])
               (Ok uri);
       SdkCall (mkCall model "transformer" []
                  [("instance_count", VInt 1);
                   ("instance_type", VStr "ml.m5.xlarge");
                   ("output_path", output);
                   ("strategy", VStr "SingleRecord")])
               (Ok job);
       SdkCall (mkCall job "transform" []
                  [("data", uri);
                   ("content_type", VStr "application/json");
                   ("split_type", VStr "Line")])
               (Ok result)]
    /\ In (SdkCall (path_join_call bucket "london/batch_transform/input") (Ok input))
          (snd (run (Sample.healthy "eu-west-1") Part001.part_001 []))
    /\ In (SdkCall (path_join_call bucket "london/batch_transform/output") (Ok output))
          (snd (run (Sample.healthy "eu-west-1") Part001.part_001 []))
    /\ In (SdkCall (model_call ("env", Part001.hub "cardiffnlp/twitter-roberta-base-sentiment"
                                                   "text-classification") role)
                   (Ok model))
          (snd (run (Sample.healthy "eu-west-1") Part001.part_001 [])).
Proof.
  apply (batch_job_transforms_the_uploaded_file
           (Sample.healthy "eu-west-1") (VObj "delete_endpoint" [])).
  vm_compute. reflexivity.
Defined.

(** X11: in every complete run of [part_001] the five models are all
    constructed with one role, and that role is the one the configuration
    cell resolved: the value [get_execution_role] returned, or after its
    [ValueError] the [Arn] of the IAM role [sagemaker_execution_role]. *)
Theorem every_model_uses_the_resolved_role env v evs :
  run env Part001.part_001 [] = (Ok v, evs) ->
  exists role m1 m2 m3 m4 m5 before lookup after,
    filter (is_call "HuggingFaceModel") evs =
      [SdkCall (model_call ("env", Part001.hub "distilbert-base-uncased-distilled-squad"
                                               "question-answering") role) (Ok m1);
       SdkCall (model_call ("model_data", VStr "s3://hf-sagemaker-inference/model.tar.gz")
                           role) (Ok m2);
       SdkCall (model_call ("env", Part001.hub "cardiffnlp/twitter-roberta-base-sentiment"
                                               "text-classification") role) (Ok m3);
       SdkCall (model_call ("env", Part001.hub
                                     "distilbert-base-uncased-finetuned-sst-2-english"
                                     "text-classification") role) (Ok m4);
       SdkCall (model_call ("env", Part001.hub "facebook/wav2vec2-base-960h"
                                               "automatic-speech-recognition") role)
               (Ok m5)]
    /\ evs = (before ++ lookup ++ after)%list
    /\ role_resolved lookup role.
Proof.
  intros H. destruct (part_001_dataflow _ _ _ H) as (f & before & lookup & after & Hf & _ & Hs & Hr).
  exists (role f), (model_rth f), (model_rts3 f), (model_batch f), (model_async f),
    (model_sls f), before, lookup, after.
  split; [|split; assumption].
  rewrite (filter_sub (is_call "HuggingFaceModel") dataflow_event).
  - rewrite Hf. reflexivity.
  - intros ev. apply is_call_dataflow. simpl. tauto.
Qed.

Lemma every_model_uses_the_resolved_role_witness :
  exists role m1 m2 m3 m4 m5 before lookup after,
    filter (is_call "HuggingFaceModel")
           (snd (run (Sample.healthy "eu-west-1") Part001.part_001 [])) =
      [SdkCall (model_call ("env", Part001.hub "distilbert-base-uncased-distilled-squad"
                                               "question-answering") role) (Ok m1);
       SdkCall (model_call ("model_data", VStr "s3://hf-sagemaker-inference/model.tar.gz")
                           role) (Ok m2);
       SdkCall (model_call ("env", Part001.hub "cardiffnlp/twitter-roberta-base-sentiment"
                                               "text-classification") role) (Ok m3);
       SdkCall (model_call ("env", Part001.hub
                                     "distilbert-base-uncased-finetuned-sst-2-english"
                                     "text-classification") role) (Ok m4);
       SdkCall (model_call ("env", Part001.hub "facebook/wav2vec2-base-960h"
                                               "automatic-speech-recognition") role)
               (Ok m5)]
    /\ snd (run (Sample.healthy "eu-west-1") Part001.part_001 []) =
         (before ++ lookup ++ after)%list
    /\ role_resolved lookup role.
Proof.
  apply (every_model_uses_the_resolved_role
           (Sample.healthy "eu-west-1") (VObj "delete_endpoint" [])).
  vm_compute. reflexivity.
Defined.

(** X12: in every complete run of [part_001] four endpoints are deployed,
    in this order: the two real-time ones with one instance each, the
    asynchronous one with the [AsyncInferenceConfig] whose output path is
    the joined [async_inference/output] path, and the serverless one with
    the [ServerlessInferenceConfig] of 4096 MB and concurrency 10 and the
    audio serializer, without an instance type or count. *)
Theorem endpoint_configurations env v evs :
  run env Part001.part_001 [] = (Ok v, evs) ->
  exists bucket m1 p1 m2 p2 m3 path async p3 m4 serverless serializer p4,
    filter config_event evs =
      [SdkCall (mkCall m1 "deploy" []
                  [("initial_instance_count", VInt 1);
                   ("instance_type", VStr "ml.g4dn.xlarge")]) (Ok p1);
       SdkCall (mkCall m2 "deploy" []
                  [("initial_instance_count", VInt 1);
                   ("instance_type", VStr "ml.m5.xlarge")]) (Ok p2);
       SdkCall (mkCall VNone "AsyncInferenceConfig" [] [("output_path", path)]) (Ok async);
       SdkCall (mkCall m3 "deploy" []
                  [("initial_instance_count", VInt 1);
                   ("instance_type", VStr "ml.g4dn.xlarge");
                   ("async_inference_config", async)]) (Ok p3);
       SdkCall (mkCall VNone "ServerlessInferenceConfig" []
                  [("memory_size_in_mb", VInt 4096); ("max_concurrency", VInt 10)])
               (Ok serverless);
       SdkCall (mkCall m4 "deploy" []
                  [("serverless_inference_config", serverless);
                   ("serializer", serializer)]) (Ok p4)]
    /\ In (SdkCall (path_join_call bucket "async_inference/output") (Ok path)) evs
    /\ In (SdkCall (mkCall VNone "DataSerializer" [] [("content_type", VStr "audio/x-audio")])
                   (Ok serializer)) evs.
Proof.
  intros H.
  destruct (filter_dataflow config_event env v evs) as (f & Hf & Hin); [|exact H|].
  { intros ev. unfold config_event. rewrite !orb_true_iff.
    intros [[E|E]|E]; revert E; apply is_call_dataflow; simpl; tauto. }
  exists (bucket f), (model_rth f), (predictor_rth f), (model_rts3 f), (predictor_rts3 f),
    (model_async f), (async_path f), (async_config f), (async_predictor f), (model_sls f),
    (serverless_config f), (audio_serializer f), (predictor_sls f).
  split; [rewrite Hf; reflexivity|].
  split; apply Hin; simpl; tauto.
Qed.

Lemma endpoint_configurations_witness :
  exists bucket m1 p1 m2 p2 m3 path async p3 m4 serverless serializer p4,
    filter config_event (snd (run (Sample.healthy "eu-west-1") Part001.part_001 [])) =
      [SdkCall (mkCall m1 "deploy" []
                  [("initial_instance_count", VInt 1);
                   ("instance_type", VStr "ml.g4dn.xlarge")]) (Ok p1);
       SdkCall (mkCall m2 "deploy" []
                  [("initial_instance_count", VInt 1);
                   ("instance_type", VStr "ml.m5.xlarge")]) (Ok p2);
       SdkCall (mkCall VNone "AsyncInferenceConfig" [] [("output_path", path)]) (Ok async);
       SdkCall (mkCall m3 "deploy" []
                  [("initial_instance_count", VInt 1);
                   ("instance_type", VStr "ml.g4dn.xlarge");
                   ("async_inference_config", async)]) (Ok p3);
       SdkCall (mkCall VNone "ServerlessInferenceConfig" []
                  [("memory_size_in_mb", VInt 4096); ("max_concurrency", VInt 10)])
               (Ok serverless);
       SdkCall (mkCall m4 "deploy" []
                  [("serverless_inference_config", serverless);
                   ("serializer", serializer)]) (Ok p4)]
    /\ In (SdkCall (path_join_call bucket "async_inference/output") (Ok path))
          (snd (run (Sample.healthy "eu-west-1") Part001.part_001 []))
    /\ In (SdkCall (mkCall VNone "DataSerializer" [] [("content_type", VStr "audio/x-audio")])
                   (Ok serializer))
          (snd (run (Sample.healthy "eu-west-1") Part001.part_001 [])).
Proof.
  apply (endpoint_configurations (Sample.healthy "eu-west-1") (VObj "delete_endpoint" [])).
  vm_compute. reflexivity.
Defined.



(** ** The training job and the instance count *)

Lemma adjacent_here a b l : adjacent a b (a :: b :: l).
Proof. exists [], l. reflexivity. Qed.

Lemma adjacent_cons a b x l : adjacent a b l -> adjacent a b (x :: l).
Proof. intros (p & q & ->). exists (x :: p), q. reflexivity. Qed.

Lemma adjacent_app_r a b l1 l2 : adjacent a b l2 -> adjacent a b (l1 ++ l2)%list.
Proof.
  intros (p & q & ->). exists (l1 ++ p)%list, q. rewrite <- app_assoc. reflexivity.
Qed.

(** X14: the training job of the distillation lab.  In every complete run
    the estimator is created with the resolved role and with the token of
    [HfFolder.get_token()] as the [hub_token] hyperparameter; [fit] is
    called with [wait=False], and the very next event of the run is
    [deploy(1, 'ml.c5.xlarge')] on the same estimator: nothing waits for
    the training job in between. *)
Theorem estimator_is_deployed_right_after_fit env v evs :
  run env Lab2.lab2_knowledge_distillation [] = (Ok v, evs) ->
  exists role token kw hp estimator job predictor before lookup_events after,
    filter training_event evs =
      [SdkCall (mkCall VNone "HfFolder.get_token" [] []) (Ok token);
       SdkCall (mkCall VNone "HuggingFace" [] kw) (Ok estimator);
       SdkCall (mkCall estimator "fit" [] [("wait", VBool false)]) (Ok job);
       SdkCall (mkCall estimator "deploy" [VInt 1; VStr "ml.c5.xlarge"] []) (Ok predictor)]
    /\ lookup "role" kw = Some role
    /\ lookup "hyperparameters" kw = Some hp
    /\ py_getitem hp (VStr "hub_token") = Ok token
    /\ adjacent (SdkCall (mkCall estimator "fit" [] [("wait", VBool false)]) (Ok job))
                (SdkCall (mkCall estimator "deploy" [VInt 1; VStr "ml.c5.xlarge"] [])
                         (Ok predictor))
                evs
    /\ evs = (before ++ lookup_events ++ after)%list
    /\ role_resolved lookup_events role.
Proof.
  intros H. unfold Lab2.lab2_knowledge_distillation in H.
  apply run_bind_Ok in H. destruct H as (v0 & e0 & e1 & H0 & H1 & ->).
  apply run_bind_Ok in H1. destruct H1 as (v1 & e2 & e3 & Hl & H2 & ->).
  apply run_bind_Ok in H2. destruct H2 as (bkt & e4 & e5 & Hb & H3 & ->).
  apply run_bind_Ok in H3. destruct H3 as (role & e6 & e7 & Hr & H4 & ->).
  apply run_resolve_role_resolved in Hr.
  assert (Fr : filter training_event e6 = []).
  { destruct Hr as [->|(iam & response & entry & -> & _)]; reflexivity. }
  assert (Fb : filter training_event e4 = []).
  { inv_run Hb; reflexivity. }
  inv_run H4. inv_run H0. inv_run Hl.
  exists role. do 6 eexists. exists ([Out (Shell "pip install sagemaker huggingface_hub --upgrade");
    SdkCall (mkCall VNone "notebook_login" [] []) (Ok v1)] ++ e4)%list, e6.
  eexists.
  split.
  { filter_trace. rewrite ?Fr, ?Fb. filter_trace. reflexivity. }
  split; [reflexivity|]. split; [reflexivity|]. split; [reflexivity|].
  split.
  { simpl. do 2 apply adjacent_cons. do 2 apply adjacent_app_r.
    repeat first [apply adjacent_here | apply adjacent_cons | apply adjacent_app_r]. }
  split; [|exact Hr].
  simpl. reflexivity.
Qed.

Lemma estimator_is_deployed_right_after_fit_witness :
  exists role token kw hp estimator job predictor before lookup_events after,
    filter training_event
           (snd (run (Sample.healthy "eu-west-1") Lab2.lab2_knowledge_distillation [])) =
      [SdkCall (mkCall VNone "HfFolder.get_token" [] []) (Ok token);
       SdkCall (mkCall VNone "HuggingFace" [] kw) (Ok estimator);
       SdkCall (mkCall estimator "fit" [] [("wait", VBool false)]) (Ok job);
       SdkCall (mkCall estimator "deploy" [VInt 1; VStr "ml.c5.xlarge"] []) (Ok predictor)]
    /\ lookup "role" kw = Some role
    /\ lookup "hyperparameters" kw = Some hp
    /\ py_getitem hp (VStr "hub_token") = Ok token
    /\ adjacent (SdkCall (mkCall estimator "fit" [] [("wait", VBool false)]) (Ok job))
                (SdkCall (mkCall estimator "deploy" [VInt 1; VStr "ml.c5.xlarge"] [])
                         (Ok predictor))
                (snd (run (Sample.healthy "eu-west-1") Lab2.lab2_knowledge_distillation []))
    /\ snd (run (Sample.healthy "eu-west-1") Lab2.lab2_knowledge_distillation []) =
         (before ++ lookup_events ++ after)%list
    /\ role_resolved lookup_events role.
Proof.
  apply (estimator_is_deployed_right_after_fit
           (Sample.healthy "eu-west-1") (VObj "plot_metrics" [])).
  vm_compute. reflexivity.
Defined.

(** X15: the instance-count cell of [part_000] reports the first
    production variant of the endpoint description only: its current and
    desired instance counts are printed after the endpoint name, whatever
    other variants follow.  When the description lists no variant, the
    cell raises [IndexError] after the two service calls and prints
    nothing. *)
Theorem instance_count_report env h predictor endpoint client response name :
  py_getattr predictor "endpoint_name" = Ok endpoint ->
  env h (mkCall VNone "boto3.client" [VStr "sagemaker"] []) = Ok client ->
  env (h ++ [SdkCall (mkCall VNone "boto3.client" [VStr "sagemaker"] []) (Ok client)])%list
      (mkCall client "describe_endpoint" [] [("EndpointName", endpoint)]) = Ok response ->
  py_getitem response (VStr "EndpointName") = Ok name ->
  (forall variant others current desired,
      py_getitem response (VStr "ProductionVariants") = Ok (VList (variant :: others)) ->
      py_getitem variant (VStr "CurrentInstanceCount") = Ok current ->
      py_getitem variant (VStr "DesiredInstanceCount") = Ok desired ->
      run env (Part000.cell_instance_count predictor) h =
        (Ok VNone,
         [SdkCall (mkCall VNone "boto3.client" [VStr "sagemaker"] []) (Ok client);
          SdkCall (mkCall client "describe_endpoint" [] [("EndpointName", endpoint)])
                  (Ok response);
          Out (Display (VStr ("Endpoint " ++ py_str name ++ " has " ++ Part000.nl
                              ++ "Current Instance Count: " ++ py_str current ++ Part000.nl
                              ++ "With a desired instance count of " ++ py_str desired)))]))
  /\ (py_getitem response (VStr "ProductionVariants") = Ok (VList []) ->
      run env (Part000.cell_instance_count predictor) h =
        (Raise IndexError,
         [SdkCall (mkCall VNone "boto3.client" [VStr "sagemaker"] []) (Ok client);
          SdkCall (mkCall client "describe_endpoint" [] [("EndpointName", endpoint)])
                  (Ok response)])).
Proof.
  intros He Hc Hd Hn. unfold Part000.cell_instance_count. split.
  - intros variant others current desired Hv Hcur Hdes.
    simpl. rewrite Hc. simpl. rewrite He. simpl. rewrite Hd. simpl.
    rewrite Hn. simpl. rewrite Hv. simpl. rewrite Hcur. simpl. rewrite Hdes. reflexivity.
  - intros Hv.
    simpl. rewrite Hc. simpl. rewrite He. simpl. rewrite Hd. simpl.
    rewrite Hn. simpl. rewrite Hv. reflexivity.
Qed.

Lemma instance_count_report_witness :
  run (Sample.healthy "eu-west-1")
      (Part000.cell_instance_count (Sample.predictor "eu-west-1" 3)) [] =
    (Ok VNone,
     [SdkCall (mkCall VNone "boto3.client" [VStr "sagemaker"] [])
              (Ok (VObj "boto3.client" []));
      SdkCall (mkCall (VObj "boto3.client" []) "describe_endpoint" []
                 [("EndpointName", VStr "endpoint-3")])
              (Ok Sample.description);
      Out (Display (VStr ("Endpoint endpoint has " ++ Part000.nl
                          ++ "Current Instance Count: 1" ++ Part000.nl
                          ++ "With a desired instance count of 1")))]).
Proof.
  apply (proj1 (instance_count_report (Sample.healthy "eu-west-1") []
                  (Sample.predictor "eu-west-1" 3) (VStr "endpoint-3")
                  (VObj "boto3.client" []) Sample.description (VStr "endpoint")
                  eq_refl eq_refl eq_refl eq_refl)
           (VDict [("CurrentInstanceCount", VInt 1); ("DesiredInstanceCount", VInt 1)])
           [] (VInt 1) (VInt 1));
    reflexivity.
Defined.
